(** * Room-scoped real-time fan-out: ChatConsumer

    A shallow embedding of [chat/consumers.py] (class [ChatConsumer]),
    [chat/jwt_middleware.py] ([get_user_from_token]) and the parts of
    [chat/models.py] and [users/models.py] they read and write.

    The asynchronous handlers are rendered as computations in a state
    and exception monad.  The state is the consumer object [self]
    together with the world it acts on: the storage tables, the
    channel-layer groups, a clock, and the chronological trace of the
    externally visible actions (frames written to a socket, group
    broadcasts, storage writes, log lines).  Python's [try]/[except]
    becomes [try_catch]; an [await] is a sequencing point. *)

From Stdlib Require Import ZArith Lia Ascii.
From stdpp Require Import base option list strings gmap sets sorting pretty.

Local Open Scope Z_scope.

(** ** Values coming from [json.loads]

    Numbers with a fractional part are outside the model. *)

#[warnings="-register-all"] Inductive jval :=
| JNull
| JBool (b : bool)
| JInt (n : Z)
| JStr (s : string)
| JArr (l : list jval)
| JObj (d : gmap string jval).

(** Python truthiness, as used by [if message_id:] and [if not token_key:]. *)
Definition truthy (v : jval) : bool :=
  match v with
  | JNull => false
  | JBool b => b
  | JInt n => negb (n =? 0)
  | JStr s => negb (String.eqb s "")
  | JArr l => negb (bool_decide (l = []))
  | JObj d => negb (bool_decide (d = ∅))
  end.

(** [v == 'lit'] for a string literal: only a JSON string can be equal. *)
Definition jeq_str (v : jval) (lit : string) : bool :=
  match v with
  | JStr s => String.eqb s lit
  | _ => false
  end.

(** [dict.get(key, default)]. *)
Definition dict_get (d : gmap string jval) (key : string) (dflt : jval) : jval :=
  default dflt (d !! key).

(** ** Storage rows ([users/models.py], [chat/models.py]) *)

Record User := mkUser {
  user_id : Z;
  username : string
}.

(** [scope['user']]: an [AnonymousUser] or a stored [User]. *)
Inductive principal :=
| AnonymousUser
| Authenticated (u : User).

(** [AnonymousUser.username] is the empty string. *)
Definition username_of (p : principal) : string :=
  match p with
  | AnonymousUser => ""
  | Authenticated u => username u
  end.

Record ChatRoom := mkChatRoom {
  members : gset Z
}.

(** [content] is a [TextField]: a stored row holds text. *)
Record Message := mkMessage {
  content : string;
  sender : User;
  room : Z;
  status : string;
  timestamp : Z
}.

Definition set_status (s : string) (m : Message) : Message :=
  mkMessage (content m) (sender m) (room m) s (timestamp m).

Record Db := mkDb {
  users : gmap Z User;
  rooms : gmap Z ChatRoom;
  messages : gmap Z Message
}.

Definition set_messages (ms : gmap Z Message) (d : Db) : Db :=
  mkDb (users d) (rooms d) ms.

(** ** Exceptions *)

Inductive exn :=
| Message_DoesNotExist
| ChatRoom_DoesNotExist
| ValueError
| IntegrityError
| JSONDecodeError
| AttributeError (attr : string)
| KeyError (key : string).

(** ** Channel-layer events (the dicts given to [group_send]) *)

Inductive event :=
| user_status_ev (user : string) (st : string) (ts : Z)
| typing_status_ev (user : string) (is_typing : jval) (ts : Z)
| message_status_ev (message_id : jval) (st : string) (user : string) (ts : Z)
| chat_message_ev (message_id : option jval) (message : jval) (user : string)
    (message_type : string) (st : option string) (ts : Z).

(** ** Frames written to one websocket ([self.send(json.dumps(...))]) *)

Inductive frame :=
| chat_message_frame (message_id : option jval) (message : jval) (user : string)
    (message_type : string) (st : option string) (ts : Z)
| user_status_frame (user : string) (st : string) (ts : Z)
| typing_status_frame (user : string) (is_typing : jval) (ts : Z)
| message_status_frame (message_id : jval) (st : string) (user : string) (ts : Z)
| error_frame (e : exn).

(** ** Log lines *)

Inductive level := INFO | WARNING | ERROR.

Inductive log_line :=
| log_status_updated (message_id : jval) (st : string) (user : string)
| log_message_not_found (message_id : jval)
| log_status_error (e : exn)
| log_unauthenticated
| log_not_member (user : string) (room_id : string)
| log_no_such_room (room_id : string)
| log_attempting (user : string) (room_id : string)
| log_connected (user : string) (room_id : string)
| log_connect_error (e : exn)
| log_disconnected (user : string) (room_id : string) (close_code : Z)
| log_disconnect_error (e : exn)
| log_received (user : string) (room_id : string) (message : jval)
| log_receive_error (e : exn)
| log_handler_error (handler : string) (e : exn).

(** ** Observable actions, in the order they happen *)

Inductive action :=
| Send (channel : string) (f : frame)
| Accept (channel : string)
| Close (channel : string) (code : Z)
| GroupAdd (group channel : string)
| GroupDiscard (group channel : string)
| GroupSend (group : string) (ev : event)
| DbCreate (id : Z) (m : Message)
| DbSave (id : Z) (st : string)
| Log (lvl : level) (line : log_line).

(** ** The world and the consumer object *)

Record World := mkWorld {
  db : Db;
  groups : gmap string (gset string);
  trace : list action;
  clock : nat → Z;
  ticks : nat
}.

Record Consumer := mkConsumer {
  channel_name : string;
  scope_user : principal;
  scope_room_id : string;
  self_user : option principal;
  self_room_id : option string;
  self_room : option Z;
  room_group_name : option string
}.

Definition set_db (d : Db) (w : World) : World :=
  mkWorld d (groups w) (trace w) (clock w) (ticks w).
Definition set_groups (g : gmap string (gset string)) (w : World) : World :=
  mkWorld (db w) g (trace w) (clock w) (ticks w).
Definition emit_w (a : action) (w : World) : World :=
  mkWorld (db w) (groups w) (trace w ++ [a]) (clock w) (ticks w).
Definition tick_w (w : World) : World :=
  mkWorld (db w) (groups w) (trace w) (clock w) (S (ticks w)).

Definition set_self_user (p : principal) (c : Consumer) : Consumer :=
  mkConsumer (channel_name c) (scope_user c) (scope_room_id c)
    (Some p) (self_room_id c) (self_room c) (room_group_name c).
Definition set_self_room_id (r : string) (c : Consumer) : Consumer :=
  mkConsumer (channel_name c) (scope_user c) (scope_room_id c)
    (self_user c) (Some r) (self_room c) (room_group_name c).
Definition set_self_room (r : Z) (c : Consumer) : Consumer :=
  mkConsumer (channel_name c) (scope_user c) (scope_room_id c)
    (self_user c) (self_room_id c) (Some r) (room_group_name c).
Definition set_room_group_name (g : string) (c : Consumer) : Consumer :=
  mkConsumer (channel_name c) (scope_user c) (scope_room_id c)
    (self_user c) (self_room_id c) (self_room c) (Some g).

(** ** The handler monad: state and exceptions *)

Inductive res (A : Type) :=
| Ok (a : A)
| Raise (e : exn).
Arguments Ok {A} a.
Arguments Raise {A} e.

Definition St : Type := Consumer * World.
Definition M (A : Type) : Type := St → res A * St.

Definition ret {A} (a : A) : M A := λ s, (Ok a, s).
Definition raise {A} (e : exn) : M A := λ s, (Raise e, s).
Definition bind {A B} (m : M A) (k : A → M B) : M B :=
  λ s, match m s with
       | (Ok a, s') => k a s'
       | (Raise e, s') => (Raise e, s')
       end.
(** [try: m except Exception as e: h e]; state changes made by [m] before
    it raised are kept, as in Python. *)
Definition try_catch {A} (m : M A) (h : exn → M A) : M A :=
  λ s, match m s with
       | (Ok a, s') => (Ok a, s')
       | (Raise e, s') => h e s'
       end.

#[export] Instance M_ret : MRet M := @ret.
#[export] Instance M_bind : MBind M := λ A B k m, bind m k.

Definition get_self : M Consumer := λ s, (Ok (fst s), s).
Definition get_world : M World := λ s, (Ok (snd s), s).
Definition modify_self (f : Consumer → Consumer) : M unit :=
  λ s, (Ok tt, (f (fst s), snd s)).
Definition modify_world (f : World → World) : M unit :=
  λ s, (Ok tt, (fst s, f (snd s))).

(** Reading an attribute of [self] that was never assigned raises. *)
Definition attr {A} (name : string) (field : Consumer → option A) : M A :=
  c ← get_self;
  match field c with
  | Some a => ret a
  | None => raise (AttributeError name)
  end.

Fixpoint for_each {A} (l : list A) (body : A → M unit) : M unit :=
  match l with
  | [] => ret tt
  | x :: l' => body x ;; for_each l' body
  end.

(** ** Primitives of the environment *)

Definition emit (a : action) : M unit := modify_world (emit_w a).
Definition log (lvl : level) (line : log_line) : M unit := emit (Log lvl line).

(** [timezone.now()]: the next reading of the clock. *)
Definition timezone_now : M Z :=
  w ← get_world;
  modify_world tick_w ;;
  ret (clock w (ticks w)).

(** [self.send], [self.accept], [self.close]. *)
Definition send (f : frame) : M unit :=
  c ← get_self; emit (Send (channel_name c) f).
Definition accept : M unit :=
  c ← get_self; emit (Accept (channel_name c)).
Definition close (code : Z) : M unit :=
  c ← get_self; emit (Close (channel_name c) code).

(** The channel layer keeps, per group, the set of subscribed channels. *)
Definition group_members (w : World) (group : string) : gset string :=
  default ∅ (groups w !! group).

Definition group_add (group channel : string) : M unit :=
  modify_world (λ w, set_groups (<[group := {[channel]} ∪ group_members w group]> (groups w)) w) ;;
  emit (GroupAdd group channel).

Definition group_discard (group channel : string) : M unit :=
  modify_world (λ w, set_groups (alter (λ s, s ∖ {[channel]}) group (groups w)) w) ;;
  emit (GroupDiscard group channel).

Definition group_send (group : string) (ev : event) : M unit :=
  emit (GroupSend group ev).

(** The primary key the database assigns to a new row. *)
Definition next_pk {A} (table : gmap Z A) : Z :=
  1 + foldr Z.max 0 (map_to_list table).*1.

(** [order_by('-timestamp')]: newest first. *)
Definition newer_first (a b : Z * Message) : Prop :=
  timestamp b.2 ≤ timestamp a.2.

#[export] Instance newer_first_dec : RelDecision newer_first :=
  λ a b, decide (timestamp b.2 ≤ timestamp a.2).

(** [Message.objects.filter(room=self.room).order_by('-timestamp')[:50]],
    evaluated to a list of rows paired with their primary keys.  The
    storage may return rows of equal timestamp in any order; the sort
    below fixes one, and nothing stated about the result depends on it. *)
Definition room_messages (d : Db) (room_pk : Z) : list (Z * Message) :=
  filter (λ row, room row.2 = room_pk) (map_to_list (messages d)).

Definition recent_messages (d : Db) (room_pk : Z) : list (Z * Message) :=
  take 50 (merge_sort newer_first (room_messages d room_pk)).

(** [status in ['online', 'offline', 'away']]: the status string when the
    test succeeds. *)
Definition presence_choice (v : jval) : option string :=
  match v with
  | JStr s => if bool_decide (s ∈ ["online"; "offline"; "away"]) then Some s else None
  | _ => None
  end.

(** ** A small concrete deployment, used for the worked runs

    Room 7 has members alice (1) and bob (2); carol (3) is not a member. *)
Module Demo.

Definition alice : User := mkUser 1 "alice".
Definition bob : User := mkUser 2 "bob".
Definition carol : User := mkUser 3 "carol".

Definition store : Db :=
  mkDb (<[1 := alice]> (<[2 := bob]> (<[3 := carol]> ∅)))
       (<[7 := mkChatRoom {[1; 2]}]> ∅)
       (<[1 := mkMessage "yo" alice 7 "sent" 10]>
          (<[2 := mkMessage "re" bob 7 "sent" 11]>
             (<[3 := mkMessage "x" alice 7 "seen" 5]> ∅))).

Definition world : World := mkWorld store ∅ [] (λ n, 100 + Z.of_nat n) 0.

(** bob's connection before and after a successful [connect]. *)
Definition fresh (ch : string) (p : principal) (room_id : string) : Consumer :=
  mkConsumer ch p room_id None None None None.
Definition bob_conn : Consumer :=
  mkConsumer "chan.bob" (Authenticated bob) "7"
    (Some (Authenticated bob)) (Some "7") (Some 7) (Some "chat_7").
Definition joined : World :=
  mkWorld store (<["chat_7" := {["chan.bob"]}]> ∅) [] (λ n, 100 + Z.of_nat n) 0.

(** Stand-ins for the library behaviour. *)
Definition coerce (v : jval) : option Z :=
  match v with
  | JStr s => if String.eqb s "7" then Some 7 else if String.eqb s "8" then Some 8 else None
  | _ => None
  end.
Definition any_text (text : string) : bool := true.
(** No run below stores a list or a dict; [repr] is right on the empty
    ones. *)
Definition repr (v : jval) : string :=
  match v with JObj _ => "{}" | _ => "[]" end.

Definition dq : string := String "034"%char "".
Definition key (k : string) : string := dq +:+ k +:+ dq +:+ ": ".
Definition str (v : string) : string := dq +:+ v +:+ dq.

Definition read_receipt_3 : string :=
  "{" +:+ key "type" +:+ str "read_receipt" +:+ ", " +:+ key "message_id" +:+ "3}".
Definition read_receipt_99 : string :=
  "{" +:+ key "type" +:+ str "read_receipt" +:+ ", " +:+ key "message_id" +:+ "99}".
Definition say_hi : string :=
  "{" +:+ key "message" +:+ str "hi" +:+ "}".
Definition say_5 : string :=
  "{" +:+ key "message" +:+ "5}".
Definition status_busy : string :=
  "{" +:+ key "type" +:+ str "status" +:+ ", " +:+ key "status" +:+ str "busy" +:+ "}".

Definition loads (text : string) : option jval :=
  if String.eqb text read_receipt_3 then
    Some (JObj (<["type" := JStr "read_receipt"]> (<["message_id" := JInt 3]> ∅)))
  else if String.eqb text read_receipt_99 then
    Some (JObj (<["type" := JStr "read_receipt"]> (<["message_id" := JInt 99]> ∅)))
  else if String.eqb text say_hi then
    Some (JObj (<["message" := JStr "hi"]> ∅))
  else if String.eqb text say_5 then
    Some (JObj (<["message" := JInt 5]> ∅))
  else if String.eqb text status_busy then
    Some (JObj (<["type" := JStr "status"]> (<["status" := JStr "busy"]> ∅)))
  else None.

(** Three tokens validate: one names bob, one carries no [user_id]
    claim, one carries a [user_id] that is not a number. *)
Definition token (t : string) : option (gmap string jval) :=
  if String.eqb t "bob-token" then Some (<["user_id" := JInt 2]> ∅)
  else if String.eqb t "claimless-token" then Some ∅
  else if String.eqb t "named-token" then Some (<["user_id" := JStr "bob"]> ∅)
  else None.

End Demo.

(** More frames and a query string for the worked runs. *)
Module Fixture.

Definition typing_on : string :=
  "{" +:+ Demo.key "type" +:+ Demo.str "typing" +:+ ", "
      +:+ Demo.key "is_typing" +:+ "true}".
Definition status_away : string :=
  "{" +:+ Demo.key "type" +:+ Demo.str "status" +:+ ", "
      +:+ Demo.key "status" +:+ Demo.str "away" +:+ "}".
Definition read_receipt_null : string :=
  "{" +:+ Demo.key "type" +:+ Demo.str "read_receipt" +:+ ", "
      +:+ Demo.key "message_id" +:+ "null}".
Definition read_receipt_1 : string :=
  "{" +:+ Demo.key "type" +:+ Demo.str "read_receipt" +:+ ", "
      +:+ Demo.key "message_id" +:+ "1}".
Definition say_null : string :=
  "{" +:+ Demo.key "message" +:+ "null}".
Definition not_json : string := "hello".
Definition a_list : string := "[1]".

Definition loads (text : string) : option jval :=
  if String.eqb text typing_on then
    Some (JObj (<["type" := JStr "typing"]> (<["is_typing" := JBool true]> ∅)))
  else if String.eqb text status_away then
    Some (JObj (<["type" := JStr "status"]> (<["status" := JStr "away"]> ∅)))
  else if String.eqb text read_receipt_null then
    Some (JObj (<["type" := JStr "read_receipt"]> (<["message_id" := JNull]> ∅)))
  else if String.eqb text read_receipt_1 then
    Some (JObj (<["type" := JStr "read_receipt"]> (<["message_id" := JInt 1]> ∅)))
  else if String.eqb text say_null then
    Some (JObj (<["message" := JNull]> ∅))
  else if String.eqb text a_list then
    Some (JArr [JInt 1])
  else None.

(** [parse_qs] on the two query strings used below. *)
Definition query (q : string) : gmap string (string * list string) :=
  if String.eqb q "token=bob-token" then <["token" := ("bob-token", [])]> ∅ else ∅.

(** alice's connection, joined to room 7 together with bob's. *)
Definition alice_conn : Consumer :=
  mkConsumer "chan.alice" (Authenticated Demo.alice) "7"
    (Some (Authenticated Demo.alice)) (Some "7") (Some 7) (Some "chat_7").
Definition both_joined : World :=
  mkWorld Demo.store (<["chat_7" := {["chan.alice"; "chan.bob"]}]> ∅) []
    (λ n, 100 + Z.of_nat n) 0.

End Fixture.

(** ** [NotificationConsumer] ([chat/consumers.py])

    The per-user notification channel.  It has no [try]/[except]: an
    exception leaves the handler.  Its handlers are short enough to be
    written with the state passed explicitly. *)
Module NotificationConsumer.

Inductive frame :=
| pong (ts : Z)
| notification (event room_id message_id message timestamp : jval).

Inductive action :=
| Send (channel : string) (f : frame)
| Accept (channel : string)
| Close (channel : string) (code : Z)
| GroupAdd (group channel : string)
| GroupDiscard (group channel : string)
| Log (line : string).

Record World := mkWorld {
  groups : gmap string (gset string);
  trace : list action;
  clock : nat → Z;
  ticks : nat
}.

Record Self := mkSelf {
  channel_name : string;
  scope_user : principal;
  user : option principal;
  group_name : option string
}.

Definition emit (a : action) (w : World) : World :=
  mkWorld (groups w) (trace w ++ [a]) (clock w) (ticks w).

Definition group_members (w : World) (group : string) : gset string :=
  default ∅ (groups w !! group).

Definition group_add (group channel : string) (w : World) : World :=
  emit (GroupAdd group channel)
    (mkWorld (<[group := {[channel]} ∪ group_members w group]> (groups w))
       (trace w) (clock w) (ticks w)).

Definition group_discard (group channel : string) (w : World) : World :=
  emit (GroupDiscard group channel)
    (mkWorld (alter (λ s, s ∖ {[channel]}) group (groups w))
       (trace w) (clock w) (ticks w)).

(** [f'notifications_{self.user.id}']. *)
Definition group_of (u : User) : string :=
  "notifications_" +:+ pretty (user_id u).

Definition connect (s : Self * World) : res unit * (Self * World) :=
  let '(self, w) := s in
  let self := mkSelf (channel_name self) (scope_user self)
                (Some (scope_user self)) (group_name self) in
  match scope_user self with
  | AnonymousUser => (Ok tt, (self, emit (Close (channel_name self) 4001) w))
  | Authenticated u =>
      let self := mkSelf (channel_name self) (scope_user self) (user self)
                    (Some (group_of u)) in
      let w := group_add (group_of u) (channel_name self) w in
      let w := emit (Accept (channel_name self)) w in
      (Ok tt, (self, emit (Log ("User " +:+ username u
                                    +:+ " connected to NotificationConsumer")) w))
  end.

Definition disconnect (close_code : Z) (s : Self * World) : res unit * (Self * World) :=
  let '(self, w) := s in
  match group_name self with
  | Some g =>
      let w := group_discard g (channel_name self) w in
      match user self with
      | Some p => (Ok tt, (self, emit (Log ("User " +:+ username_of p
                                          +:+ " disconnected from NotificationConsumer")) w))
      | None => (Raise (AttributeError "user"), (self, w))
      end
  | None => (Ok tt, (self, w))
  end.

Definition receive_json (content : jval) (s : Self * World) : res unit * (Self * World) :=
  let '(self, w) := s in
  match content with
  | JObj d =>
      if jeq_str (default JNull (d !! "action")) "ping" then
        let ts := clock w (ticks w) in
        let w := mkWorld (groups w) (trace w) (clock w) (S (ticks w)) in
        (Ok tt, (self, emit (Send (channel_name self) (pong ts)) w))
      else (Ok tt, (self, w))
  | _ => (Raise (AttributeError "get"), (self, w))
  end.

(** [send_notification]: the event is the dict given to [group_send]. *)
Definition send_notification (event : gmap string jval) (s : Self * World)
    : res unit * (Self * World) :=
  let '(self, w) := s in
  let field k := default JNull (event !! k) in
  (Ok tt, (self, emit (Send (channel_name self)
                         (notification (field "event") (field "room_id")
                            (field "message_id") (field "message") (field "timestamp")))
                   w)).

End NotificationConsumer.

(** ** [chat/signals.py] *)

(** The group a [send_notification_to_users] event goes to:
    [f"user_{member.id}"]. *)
Definition user_group (member_id : Z) : string := "user_" +:+ pretty member_id.

(** The payload of the ['notify'] event. *)
Record notify_payload := mkNotify {
  notify_room_id : Z;
  notify_message_id : Z;
  notify_message : string;
  notify_sender : string;
  notify_timestamp : Z
}.

(** [send_notification_to_users(room, message)]: the [group_send] calls
    it makes, one for each row of
    [room.members.exclude(id=message.sender.id)], in the order the
    query returns them ([order], taken as given). *)
Definition send_notification_to_users (order : gset Z → list Z)
    (room_pk : Z) (room_members : gset Z) (message : Z * Message)
    : list (string * notify_payload) :=
  (λ member_id,
     (user_group member_id,
      mkNotify room_pk message.1 (content message.2) (username (sender message.2))
        (timestamp message.2)))
  <$> order (room_members ∖ {[user_id (sender message.2)]}).

(** ** [ChatRoom] ([chat/models.py]) *)
Module ChatRoomModel.

Record Row := mkRow {
  name : option string;
  type : string;
  room_members : gset Z
}.

(** [not self.name]. *)
Definition no_name (r : Row) : bool :=
  match name r with
  | None => true
  | Some n => String.eqb n ""
  end.

(** [save]: the row handed to the storage, or the exception raised. *)
Definition save (r : Row) : res Row :=
  if String.eqb (type r) "direct" then Ok (mkRow None (type r) (room_members r))
  else if no_name r then Raise ValueError
  else Ok r.

(** [queryset.first()] of an unordered query: the row with the least
    primary key. *)
Definition first (ids : gset Z) : option Z :=
  head (merge_sort Z.le (elements ids)).

Definition get_other_member_id (r : Row) (user_pk : Z) : option Z :=
  if negb (String.eqb (type r) "direct") then None
  else first (room_members r ∖ {[user_pk]}).

End ChatRoomModel.

Section Consumer.

(** Behaviour of the libraries the handlers call, taken as given:
    - [coerce_pk]: Django's conversion of a lookup value that is not an
      integer to a primary key ([None] when it raises);
    - [accepts_text]: whether the storage accepts a text for the
      [content] column of a new message;
    - [py_repr]: [str] of a list or of a dict;
    - [json_loads]: [json.loads] ([None] when it raises);
    - [decode_token]: [AccessToken(token_key)], the payload of a token
      that validates ([None] for [InvalidToken] / [TokenError]). *)
Variable coerce_pk : jval → option Z.
Variable accepts_text : string → bool.
Variable py_repr : jval → string.
Variable json_loads : string → option jval.
Variable decode_token : string → option (gmap string jval).

Set Default Proof Using "Type".

(** [str(value)] for a decoded JSON value. *)
Definition py_str (v : jval) : string :=
  match v with
  | JNull => "None"
  | JBool true => "True"
  | JBool false => "False"
  | JInt n => pretty n
  | JStr s => s
  | JArr _ | JObj _ => py_repr v
  end.

(** [TextField.to_python], applied to the value given for [content]
    before it is written: [None] and a string are kept, anything else
    becomes [str(value)]. *)
Definition to_python (value : jval) : option string :=
  match value with
  | JNull => None
  | _ => Some (py_str value)
  end.

(** Whether the insert of a new message with this [content] succeeds:
    the column is [NOT NULL], and the storage has to accept the text. *)
Definition storable (value : jval) : bool :=
  match to_python value with
  | None => false
  | Some text => accepts_text text
  end.

Definition to_pk (v : jval) : option Z :=
  match v with
  | JInt n => Some n
  | _ => coerce_pk v
  end.

(** [Message.objects.get(id=message_id)]. *)
Definition Message_objects_get (message_id : jval) : M (Z * Message) :=
  match to_pk message_id with
  | None => raise ValueError
  | Some id =>
      w ← get_world;
      match messages (db w) !! id with
      | None => raise Message_DoesNotExist
      | Some m => ret (id, m)
      end
  end.

(** [message.save()]. *)
Definition Message_save (id : Z) (m : Message) : M unit :=
  modify_world (λ w, set_db (set_messages (<[id := m]> (messages (db w))) (db w)) w) ;;
  emit (DbSave id (status m)).

(** [Message.objects.create(content=..., sender=..., room=..., status=...,
    timestamp=...)].  The row written holds [to_python] of the content;
    a null content violates the [NOT NULL] constraint.  Of the instance
    it returns, [receive] reads the [id] and the [timestamp]. *)
Definition Message_objects_create (message_content : jval) (sender : User) (room : Z)
    (status : string) (timestamp : Z) : M (Z * Message) :=
  match to_python message_content with
  | None => raise IntegrityError
  | Some text =>
      if accepts_text text then
        let m := mkMessage text sender room status timestamp in
        w ← get_world;
        let id := next_pk (messages (db w)) in
        modify_world (λ w, set_db (set_messages (<[id := m]> (messages (db w))) (db w)) w) ;;
        emit (DbCreate id m) ;;
        ret (id, m)
      else raise IntegrityError
  end.

(** [ChatRoom.objects.get(id=self.room_id)]. *)
Definition ChatRoom_objects_get (room_id : string) : M Z :=
  match to_pk (JStr room_id) with
  | None => raise ValueError
  | Some id =>
      w ← get_world;
      match rooms (db w) !! id with
      | None => raise ChatRoom_DoesNotExist
      | Some _ => ret id
      end
  end.

(** [self.room.members.filter(id=uid).exists()]. *)
Definition members_exists (room_pk uid : Z) : M bool :=
  w ← get_world;
  ret (match rooms (db w) !! room_pk with
       | Some r => bool_decide (uid ∈ members r)
       | None => false
       end).

(** ** [ChatConsumer] *)

Definition update_user_status (st : string) : M unit :=
  g ← attr "room_group_name" room_group_name;
  u ← attr "user" self_user;
  ts ← timezone_now;
  group_send g (user_status_ev (username_of u) st ts).

Definition update_typing_status (is_typing : jval) : M unit :=
  g ← attr "room_group_name" room_group_name;
  u ← attr "user" self_user;
  ts ← timezone_now;
  group_send g (typing_status_ev (username_of u) is_typing ts).

Definition update_message_status (message_id : jval) (st : string) : M unit :=
  try_catch
    ('(id, message) ← Message_objects_get message_id;
     Message_save id (set_status st message) ;;
     g ← attr "room_group_name" room_group_name;
     u ← attr "user" self_user;
     ts ← timezone_now;
     group_send g (message_status_ev message_id st (username_of u) ts) ;;
     log INFO (log_status_updated message_id st (username_of u)))
    (λ e, match e with
          | Message_DoesNotExist => log ERROR (log_message_not_found message_id)
          | _ => log ERROR (log_status_error e)
          end).

(** The frame [connect] writes for one stored message. *)
Definition history_frame (row : Z * Message) : frame :=
  chat_message_frame (Some (JInt row.1)) (JStr (content row.2)) (username (sender row.2))
    "message" (Some (status row.2)) (timestamp row.2).

(** [message.sender != self.user and message.status == 'sent']; model
    instances compare by primary key. *)
Definition needs_delivery (me : User) (row : Z * Message) : bool :=
  negb (user_id (sender row.2) =? user_id me) && String.eqb (status row.2) "sent".

(** The body of the replay loop of [connect], for one stored message. *)
Definition replay_message (me : User) (row : Z * Message) : M unit :=
  send (history_frame row) ;;
  if needs_delivery me row
  then update_message_status (JInt row.1) "delivered"
  else ret tt.

Definition connect : M unit :=
  try_catch
    (c ← get_self;
     modify_self (set_self_user (scope_user c)) ;;
     match scope_user c with
     | AnonymousUser =>
         log WARNING log_unauthenticated ;;
         close 4001
     | Authenticated u =>
         modify_self (set_self_room_id (scope_room_id c)) ;;
         joining ← try_catch
           (rid ← attr "room_id" self_room_id;
            r ← ChatRoom_objects_get rid;
            modify_self (set_self_room r) ;;
            is_member ← members_exists r (user_id u);
            if is_member : bool then ret true
            else
              log WARNING (log_not_member (username u) rid) ;;
              close 4002 ;;
              ret false)
           (λ e, match e with
                 | ChatRoom_DoesNotExist =>
                     log WARNING (log_no_such_room (scope_room_id c)) ;;
                     close 4004 ;;
                     ret false
                 | _ => raise e
                 end);
         if joining : bool then
           rid ← attr "room_id" self_room_id;
           modify_self (set_room_group_name ("chat_" +:+ rid)) ;;
           log INFO (log_attempting (username u) rid) ;;
           g ← attr "room_group_name" room_group_name;
           group_add g (channel_name c) ;;
           accept ;;
           r ← attr "room" self_room;
           w ← get_world;
           for_each (reverse (recent_messages (db w) r)) (replay_message u) ;;
           ts ← timezone_now;
           group_send g (chat_message_ev None (JStr (username u +:+ " joined the chat"))
                           (username u) "join" None ts) ;;
           update_user_status "online" ;;
           log INFO (log_connected (username u) rid)
         else ret tt
     end)
    (λ e, log ERROR (log_connect_error e) ;; close 4000).

Definition disconnect (close_code : Z) : M unit :=
  try_catch
    (c ← get_self;
     match room_group_name c, self_user c with
     | Some _, Some _ =>
         update_user_status "offline" ;;
         update_typing_status (JBool false) ;;
         g ← attr "room_group_name" room_group_name;
         u ← attr "user" self_user;
         ts ← timezone_now;
         group_send g (chat_message_ev None (JStr (username_of u +:+ " left the chat"))
                         (username_of u) "leave" None ts) ;;
         group_discard g (channel_name c) ;;
         rid ← attr "room_id" self_room_id;
         log INFO (log_disconnected (username_of u) rid close_code)
     | _, _ => ret tt
     end)
    (λ e, log ERROR (log_disconnect_error e)).

(** The part of [receive] after the three early-return branches. *)
Definition send_new_message (text_data_json : gmap string jval) : M unit :=
  let message_content := dict_get text_data_json "message" (JStr "") in
  u ← attr "user" self_user;
  rid ← attr "room_id" self_room_id;
  log INFO (log_received (username_of u) rid message_content) ;;
  update_typing_status (JBool false) ;;
  r ← attr "room" self_room;
  ts ← timezone_now;
  '(id, message) ← match u with
                   | Authenticated usr =>
                       Message_objects_create message_content usr r "sending" ts
                   | AnonymousUser => raise ValueError
                   end;
  g ← attr "room_group_name" room_group_name;
  group_send g (chat_message_ev (Some (JInt id)) message_content (username_of u)
                  "message" (Some "sent") (timestamp message)) ;;
  update_message_status (JInt id) "sent".

Definition receive (text_data : string) : M unit :=
  try_catch
    (match json_loads text_data with
     | None => raise JSONDecodeError
     | Some (JObj text_data_json) =>
         let message_type := dict_get text_data_json "type" (JStr "message") in
         if jeq_str message_type "status" then
           match presence_choice (dict_get text_data_json "status" JNull) with
           | Some st => update_user_status st
           | None => ret tt
           end
         else if jeq_str message_type "typing" then
           update_typing_status (dict_get text_data_json "is_typing" (JBool false))
         else if jeq_str message_type "read_receipt" then
           let message_id := dict_get text_data_json "message_id" JNull in
           if truthy message_id then update_message_status message_id "seen"
           else ret tt
         else send_new_message text_data_json
     | Some _ => raise (AttributeError "get")
     end)
    (λ e, log ERROR (log_receive_error e) ;; send (error_frame e)).

(** *** Handlers for events arriving from the room group *)

Definition chat_message (message_id : option jval) (message : jval) (user : string)
    (message_type : string) (st : option string) (ts : Z) : M unit :=
  try_catch
    (send (chat_message_frame message_id message user message_type st ts) ;;
     if String.eqb message_type "message" then
       u ← attr "user" self_user;
       if negb (String.eqb user (username_of u))
          && bool_decide (st = Some "sent")
       then match message_id with
            | Some id => update_message_status id "delivered"
            | None => raise (KeyError "message_id")
            end
       else ret tt
     else ret tt)
    (λ e, log ERROR (log_handler_error "chat_message" e) ;; send (error_frame e)).

Definition user_status (user st : string) (ts : Z) : M unit :=
  try_catch
    (send (user_status_frame user st ts))
    (λ e, log ERROR (log_handler_error "user_status" e) ;; send (error_frame e)).

Definition typing_status (user : string) (is_typing : jval) (ts : Z) : M unit :=
  try_catch
    (send (typing_status_frame user is_typing ts))
    (λ e, log ERROR (log_handler_error "typing_status" e) ;; send (error_frame e)).

Definition message_status (message_id : jval) (st user : string) (ts : Z) : M unit :=
  try_catch
    (send (message_status_frame message_id st user ts))
    (λ e, log ERROR (log_handler_error "message_status" e) ;; send (error_frame e)).

(** The channel layer hands a group event to the method named by its
    ['type'] key. *)
Definition dispatch (ev : event) : M unit :=
  match ev with
  | user_status_ev user st ts => user_status user st ts
  | typing_status_ev user is_typing ts => typing_status user is_typing ts
  | message_status_ev message_id st user ts => message_status message_id st user ts
  | chat_message_ev message_id message user message_type st ts =>
      chat_message message_id message user message_type st ts
  end.

(** ** [get_user_from_token] ([chat/jwt_middleware.py])

    The [except] clause catches [InvalidToken], [TokenError] and
    [User.DoesNotExist] only: a payload without a ['user_id'] entry
    ([KeyError]) and a ['user_id'] that cannot be used as a key
    ([ValueError]) leave the function as exceptions.  A lookup with
    [id=None] is a test for a null key and finds no row. *)

Definition get_user_from_token (token_key : option string) (d : Db) : res principal :=
  match token_key with
  | None => Ok AnonymousUser
  | Some t =>
      if String.eqb t "" then Ok AnonymousUser
      else match decode_token t with
           | None => Ok AnonymousUser
           | Some access_token =>
               match access_token !! "user_id" with
               | None => Raise (KeyError "user_id")
               | Some JNull => Ok AnonymousUser
               | Some v =>
                   match to_pk v with
                   | None => Raise ValueError
                   | Some uid =>
                       match users d !! uid with
                       | Some u => Ok (Authenticated u)
                       | None => Ok AnonymousUser
                       end
                   end
               end
           end
  end.

(** ** Vocabulary for the properties *)

(** The world after a handler has added [acts] to the trace and changed
    nothing else. *)
Definition emits (w : World) (acts : list action) : World :=
  mkWorld (db w) (groups w) (trace w ++ acts) (clock w) (ticks w).

(** Projections of a list of actions. *)
Definition sends (acts : list action) : list (string * frame) :=
  omap (λ a, match a with Send ch f => Some (ch, f) | _ => None end) acts.
Definition db_writes (acts : list action) : list (Z * string) :=
  omap (λ a, match a with DbSave id st => Some (id, st) | _ => None end) acts.
Definition broadcasts (acts : list action) : list (string * event) :=
  omap (λ a, match a with GroupSend g ev => Some (g, ev) | _ => None end) acts.
Definition close_codes (acts : list action) : list Z :=
  omap (λ a, match a with Close _ code => Some code | _ => None end) acts.
Definition accepts (acts : list action) : list string :=
  omap (λ a, match a with Accept ch => Some ch | _ => None end) acts.
Definition discards (acts : list action) : list (string * string) :=
  omap (λ a, match a with GroupDiscard g ch => Some (g, ch) | _ => None end) acts.
Definition leave_broadcasts (acts : list action) : list string :=
  omap (λ a, match a with
             | GroupSend _ (chat_message_ev _ _ user "leave" _ _) => Some user
             | _ => None
             end) acts.

(** A connected session: the attributes [connect] assigns on success. *)
Record active (c : Consumer) (u : User) (rid : string) (r : Z) (g : string) : Prop := {
  active_user : self_user c = Some (Authenticated u);
  active_room_id : self_room_id c = Some rid;
  active_room : self_room c = Some r;
  active_group : room_group_name c = Some g
}.

(** The entry points through which the framework drives a consumer. *)
Inductive call :=
| Connect
| Disconnect (close_code : Z)
| Receive (text_data : string)
| Deliver (ev : event).

Definition run_call (k : call) : M unit :=
  match k with
  | Connect => connect
  | Disconnect close_code => disconnect close_code
  | Receive text_data => receive text_data
  | Deliver ev => dispatch ev
  end.

Definition run_calls (ks : list call) (s : St) : St :=
  foldl (λ s k, (run_call k s).2) s ks.

(** *** The delivery order [sending < sent < delivered < seen] *)

Definition status_rank (st : string) : option nat :=
  if String.eqb st "sending" then Some 0%nat
  else if String.eqb st "sent" then Some 1%nat
  else if String.eqb st "delivered" then Some 2%nat
  else if String.eqb st "seen" then Some 3%nat
  else None.

Definition status_le (a b : string) : Prop :=
  match status_rank a, status_rank b with
  | Some x, Some y => (x ≤ y)%nat
  | _, _ => False
  end.

Definition stored_status (w : World) (id : Z) : option string :=
  status <$> messages (db w) !! id.

(** The stored status of message [id] after each of the requests [reqs],
    delivered one after the other to [update_message_status]. *)
Fixpoint observed_statuses (id : Z) (reqs : list string) (s : St) : list (option string) :=
  match reqs with
  | [] => []
  | st :: reqs' =>
      let s' := (update_message_status (JInt id) st s).2 in
      stored_status s'.2 id :: observed_statuses id reqs' s'
  end.

(** The stored status never decreases along the requests. *)
Definition monotone_run (id : Z) (reqs : list string) (s : St) : Prop :=
  ∃ sts, stored_status s.2 id :: observed_statuses id reqs s = Some <$> sts
         ∧ Sorted status_le sts.

(** *** Write-then-publish *)

(** The status a broadcast announces for a message. *)
Definition announced (a : action) : option (jval * string) :=
  match a with
  | GroupSend _ (message_status_ev mid st _ _) => Some (mid, st)
  | GroupSend _ (chat_message_ev (Some mid) _ _ _ (Some st) _) => Some (mid, st)
  | _ => None
  end.

(** The status a storage write records for a message. *)
Definition recorded (a : action) : option (Z * string) :=
  match a with
  | DbSave id st => Some (id, st)
  | DbCreate id m => Some (id, status m)
  | _ => None
  end.

(** Every announced status was written to storage earlier in the trace. *)
Definition write_then_publish (t : list action) : Prop :=
  ∀ pre a post mid st,
    t = pre ++ a :: post → announced a = Some (mid, st) →
    ∃ b id, b ∈ pre ∧ to_pk mid = Some id ∧ recorded b = Some (id, st).

(** What the action just before a broadcast must be: a [message_status]
    event directly follows the save of the status it carries; the
    [chat_message] broadcast of a new message, which says ['sent'],
    directly follows the creation of its row, which holds status
    ['sending'] and the text of the content broadcast. *)
Definition justified (prev : option action) (a : action) : Prop :=
  match a with
  | GroupSend _ (message_status_ev mid st _ _) =>
      ∃ id, to_pk mid = Some id ∧ prev = Some (DbSave id st)
  | GroupSend _ (chat_message_ev mid msg _ mt st _) =>
      mt = "message" →
      ∃ id m, mid = Some (JInt id) ∧ st = Some "sent" ∧ prev = Some (DbCreate id m)
              ∧ status m = "sending" ∧ to_python msg = Some (content m)
  | _ => True
  end.

Fixpoint follows_record (prev : option action) (t : list action) : Prop :=
  match t with
  | [] => True
  | a :: t' => justified prev a ∧ follows_record (Some a) t'
  end.

Definition publish_follows_record (t : list action) : Prop :=
  follows_record None t.

(** *** What the initiator of a transition can observe of a failure:
    an exception reaching it, or an error frame on its own socket. *)
Definition caller_observes_failure (r : res unit) (ch : string) (acts : list action) : Prop :=
  (∃ e, r = Raise e) ∨ (∃ e, (ch, error_frame e) ∈ sends acts).

(** *** Admission *)

(** A credential the middleware maps to [AnonymousUser]: no token, an
    empty one, one that fails validation, or one naming no stored user. *)
Definition invalid_credential (token_key : option string) (d : Db) : Prop :=
  token_key = None
  ∨ ∃ t, token_key = Some t
         ∧ (t = "" ∨ decode_token t = None
            ∨ ∃ access_token v uid,
                decode_token t = Some access_token
                ∧ access_token !! "user_id" = Some v
                ∧ to_pk v = Some uid ∧ users d !! uid = None).

(** [connect] closed the connection with [code] before it was accepted:
    nothing but the trace changed in the world, no [accept], no
    broadcast, and the consumer never got a room group. *)
Definition rejected (c : Consumer) (w : World) (code : Z) : Prop :=
  ∃ c' acts,
    connect (c, w) = (Ok tt, (c', emits w acts))
    ∧ close_codes acts = [code]
    ∧ accepts acts = []
    ∧ broadcasts acts = []
    ∧ room_group_name c' = room_group_name c.

(** *** Teardown *)

(** The actions of one [disconnect] of a connected session, reading the
    clock from tick [n] on. *)
Definition teardown (g ch un rid : string) (close_code : Z) (clk : nat → Z) (n : nat)
    : list action :=
  [GroupSend g (user_status_ev un "offline" (clk n));
   GroupSend g (typing_status_ev un (JBool false) (clk (S n)));
   GroupSend g (chat_message_ev None (JStr (un +:+ " left the chat")) un "leave" None
                  (clk (S (S n))));
   GroupDiscard g ch;
   Log INFO (log_disconnected un rid close_code)].

(** *** Replay on join *)

(** The messages [connect] replays, in the order it replays them. *)
Definition replay_window (d : Db) (room_pk : Z) : list (Z * Message) :=
  reverse (recent_messages d room_pk).

Definition older_first (a b : Z * Message) : Prop :=
  timestamp a.2 ≤ timestamp b.2.

(** Broadcasts of message content to a group. *)
Definition message_broadcasts (acts : list action) : list (string * jval) :=
  omap (λ a, match a with
             | GroupSend g (chat_message_ev _ msg _ mt _ _) =>
                 if String.eqb mt "message" then Some (g, msg) else None
             | _ => None
             end) acts.

(** The table after the replay of one row. *)
Definition mark_delivered (me : User) (ms : gmap Z Message) (row : Z * Message)
    : gmap Z Message :=
  if needs_delivery me row then alter (set_status "delivered") row.1 ms else ms.

(** What the replay loop over [rows] does to the world. *)
Definition replayed (c : Consumer) (me : User) (rows : list (Z * Message))
    (w w' : World) : Prop :=
  ∃ acts,
    trace w' = trace w ++ acts
    ∧ sends acts = (λ row, (channel_name c, history_frame row)) <$> rows
    ∧ db_writes acts =
        (λ row, (row.1, "delivered")) <$> filter (λ row, needs_delivery me row) rows
    ∧ accepts acts = [] ∧ close_codes acts = [] ∧ message_broadcasts acts = []
    ∧ groups w' = groups w ∧ clock w' = clock w
    ∧ users (db w') = users (db w) ∧ rooms (db w') = rooms (db w)
    ∧ messages (db w') = foldl (mark_delivered me) (messages (db w)) rows.

(** *** Handlers whose broadcasts all follow their record *)

Definition well_ordered (acts : list action) : Prop :=
  ∀ prev, follows_record prev acts.

Definition orderly {A} (m : M A) : Prop :=
  ∀ s, ∃ acts, trace (snd (snd (m s))) = trace (snd s) ++ acts ∧ well_ordered acts.

(** *** What a handler leaves alone *)

(** [P] relates the state before a computation to the state after it. *)
Definition stable {A} (P : St → St → Prop) (m : M A) : Prop :=
  ∀ s, P s (snd (m s)).

(** Actions a handler may take without disturbing the session of the
    connection on channel [ch]: frames go to [ch] only, and the
    connection is neither accepted nor closed nor moved between groups. *)
Definition own_traffic (ch : string) (a : action) : Prop :=
  match a with
  | Send ch' _ => ch' = ch
  | Accept _ | Close _ _ | GroupAdd _ _ | GroupDiscard _ _ => False
  | _ => True
  end.

Definition session_kept (s s' : St) : Prop :=
  fst s' = fst s
  ∧ groups (snd s') = groups (snd s)
  ∧ ∃ acts, trace (snd s') = trace (snd s) ++ acts
            ∧ Forall (own_traffic (channel_name (fst s))) acts.

(** Two versions of a row that differ at most in [status]. *)
Definition same_but_status (m m' : Message) : Prop :=
  content m' = content m ∧ sender m' = sender m
  ∧ room m' = room m ∧ timestamp m' = timestamp m.

Definition data_kept (s s' : St) : Prop :=
  users (db (snd s')) = users (db (snd s))
  ∧ rooms (db (snd s')) = rooms (db (snd s))
  ∧ ∀ id m, messages (db (snd s)) !! id = Some m →
            ∃ m', messages (db (snd s')) !! id = Some m' ∧ same_but_status m m'.


(** ** [JWTAuthMiddleware.__call__] ([chat/jwt_middleware.py]) *)

(** [urllib.parse.parse_qs], taken as given: the values found for each
    key of a query string, a non-empty list written as its first
    element and the rest. *)
Variable parse_qs : string → gmap string (string * list string).

(** The two entries of the connection scope the middleware reads:
    the (decoded) query string, and the header pairs when present. *)
Record Scope := mkScope {
  query_string : string;
  headers : option (list (string * string))
}.

(** [dict(pairs)]: a later pair replaces an earlier one with the same key. *)
Definition py_dict (pairs : list (string * string)) : gmap string string :=
  foldl (λ m kv, <[kv.1 := kv.2]> m) ∅ pairs.

(** [s.split(sep)] for a one-character separator, as the first piece
    and the list of the following pieces. *)
Fixpoint split_on (sep : ascii) (s : string) : string * list string :=
  match s with
  | EmptyString => (EmptyString, [])
  | String a s' =>
      let '(p, ps) := split_on sep s' in
      if Ascii.eqb a sep then (EmptyString, p :: ps) else (String a p, ps)
  end.

Definition str_split (sep : ascii) (s : string) : list string :=
  let '(p, ps) := split_on sep s in p :: ps.

(** [s.startswith(prefix)]. *)
Fixpoint startswith (prefix s : string) : bool :=
  match prefix, s with
  | EmptyString, _ => true
  | String a prefix', String b s' => Ascii.eqb a b && startswith prefix' s'
  | String _ _, EmptyString => false
  end.

Fixpoint has_char (a : ascii) (s : string) : bool :=
  match s with
  | EmptyString => false
  | String b s' => Ascii.eqb b a || has_char a s'
  end.

(** The token the middleware hands to [get_user_from_token]: the first
    ['token'] value of the query string, else the second space-separated
    piece of an ['authorization'] header that starts with ['Bearer ']. *)
Definition token_key_of (sc : Scope) : option string :=
  let token_key :=
    match parse_qs (query_string sc) !! "token" with
    | Some (t, _) => Some t
    | None => None
    end in
  if match token_key with Some t => negb (String.eqb t "") | None => false end
  then token_key
  else match headers sc with
       | None => token_key
       | Some hs =>
           match py_dict hs !! "authorization" with
           | None => token_key
           | Some auth_header =>
               if startswith "Bearer " auth_header
               then str_split " " auth_header !! 1%nat
               else token_key
           end
       end.

(** [scope['user']] as the middleware sets it; an exception of
    [get_user_from_token] leaves [__call__] before the application is
    entered. *)
Definition JWTAuthMiddleware_call (sc : Scope) (d : Db) : res principal :=
  get_user_from_token (token_key_of sc) d.


(** * Properties *)

(** ** Running the handlers symbolically *)

Ltac mred :=
  cbv beta iota zeta delta
    [mbind M_bind bind mret M_ret ret raise try_catch attr
     get_self get_world modify_self modify_world emit log send close accept
     group_send group_add group_discard timezone_now
     emit_w set_db set_groups tick_w emits set_messages
     set_self_user set_self_room_id set_self_room set_room_group_name];
  cbn [fst snd db groups trace clock ticks users rooms messages
       content sender room status timestamp
       channel_name scope_user scope_room_id self_user self_room_id self_room
       room_group_name].

(** Use an equation of the context to decide the next [match]. *)
Ltac mstep :=
  match goal with
  | H : ?x = _ |- context [match ?x with _ => _ end] => rewrite H
  end.
Ltac mrun := mred; repeat (mstep; mred).

Lemma emits_nil w : emits w [] = w.
Proof. destruct w; unfold emits; cbn. by rewrite app_nil_r. Qed.

Lemma emits_emits w a b : emits (emits w a) b = emits w (a ++ b).
Proof. unfold emits; cbn. by rewrite app_assoc. Qed.

Lemma update_user_status_run c w st g u :
  room_group_name c = Some g → self_user c = Some u →
  update_user_status st (c, w) =
    (Ok tt, (c, mkWorld (db w) (groups w)
                  (trace w ++ [GroupSend g (user_status_ev (username_of u) st (clock w (ticks w)))])
                  (clock w) (S (ticks w)))).
Proof.
  intros Hg Hu. unfold update_user_status. mred. rewrite Hg. mred. rewrite Hu. by mred.
Qed.

Lemma update_typing_status_run c w is_typing g u :
  room_group_name c = Some g → self_user c = Some u →
  update_typing_status is_typing (c, w) =
    (Ok tt, (c, mkWorld (db w) (groups w)
                  (trace w ++ [GroupSend g (typing_status_ev (username_of u) is_typing (clock w (ticks w)))])
                  (clock w) (S (ticks w)))).
Proof.
  intros Hg Hu. unfold update_typing_status. mred. rewrite Hg. mred. rewrite Hu. by mred.
Qed.

(** A request for a stored message, from a connected session: the save,
    then the broadcast, then the log line. *)
Lemma update_message_status_found c w v st id m g u :
  to_pk v = Some id → messages (db w) !! id = Some m →
  room_group_name c = Some g → self_user c = Some u →
  update_message_status v st (c, w) =
    (Ok tt, (c, mkWorld (set_messages (<[id := set_status st m]> (messages (db w))) (db w))
                  (groups w)
                  (trace w ++ [DbSave id st;
                               GroupSend g (message_status_ev v st (username_of u)
                                              (clock w (ticks w)));
                               Log INFO (log_status_updated v st (username_of u))])
                  (clock w) (S (ticks w)))).
Proof.
  intros Hpk Hm Hg Hu.
  unfold update_message_status, Message_objects_get, Message_save.
  mred. rewrite Hpk. mred. rewrite Hm. mred. rewrite Hg. mred. rewrite Hu. mred.
  by rewrite <- !app_assoc.
Qed.

Lemma update_message_status_absent c w v st id :
  to_pk v = Some id → messages (db w) !! id = None →
  update_message_status v st (c, w) =
    (Ok tt, (c, emits w [Log ERROR (log_message_not_found v)])).
Proof.
  intros Hpk Hm. unfold update_message_status, Message_objects_get.
  mred. rewrite Hpk. mred. rewrite Hm. by mred.
Qed.

Lemma update_message_status_bad_id c w v st :
  to_pk v = None →
  update_message_status v st (c, w) =
    (Ok tt, (c, emits w [Log ERROR (log_status_error ValueError)])).
Proof.
  intros Hpk. unfold update_message_status, Message_objects_get.
  mred. rewrite Hpk. by mred.
Qed.

(** Whatever happens, [update_message_status] returns normally and leaves
    the consumer object alone. *)
Lemma update_message_status_total c w v st :
  ∃ w', update_message_status v st (c, w) = (Ok tt, (c, w')).
Proof.
  unfold update_message_status, Message_objects_get, Message_save. mred.
  destruct (to_pk v) as [id|]; mred; [|eauto].
  destruct (messages (db w) !! id) as [m|]; mred; [|eauto].
  destruct (room_group_name c); mred; [|eauto].
  destruct (self_user c); mred; eauto.
Qed.

(** [status in ['online', 'offline', 'away']] fails exactly on the values
    that are none of the three strings. *)
Lemma presence_choice_None v :
  v ∉ [JStr "online"; JStr "offline"; JStr "away"] → presence_choice v = None.
Proof.
  intros Hv. destruct v as [| | |s| |]; try reflexivity. cbn.
  case_bool_decide as Hs; [|done].
  exfalso. apply Hv. rewrite !elem_of_cons in Hs. rewrite !elem_of_cons.
  destruct Hs as [->|[->|[->|Hs]]]; [by left|by right; left|by right; right; left|].
  by apply elem_of_nil in Hs.
Qed.

Lemma jeq_str_true v lit : jeq_str v lit = true ↔ v = JStr lit.
Proof.
  destruct v as [| | |s| |]; cbn; try (split; [discriminate|congruence]).
  rewrite String.eqb_eq. split; congruence.
Qed.

Lemma jeq_str_false v lit : v ≠ JStr lit → jeq_str v lit = false.
Proof.
  intros Hv. destruct (jeq_str v lit) eqn:E; [|done].
  by apply jeq_str_true in E.
Qed.

Lemma dict_get_Some d key dflt v : d !! key = Some v → dict_get d key dflt = v.
Proof. intros H. unfold dict_get. by rewrite H. Qed.

Lemma dict_get_None d key dflt : d !! key = None → dict_get d key dflt = dflt.
Proof. intros H. unfold dict_get. by rewrite H. Qed.

(** What [storable] comes to: the value is not null and the storage
    accepts its text. *)
Lemma storable_true v :
  storable v = true ↔
  v ≠ JNull ∧ to_python v = Some (py_str v) ∧ accepts_text (py_str v) = true.
Proof.
  unfold storable, to_python. destruct v; split;
    first [discriminate | by intros (? & _) | by intros ? | by intros (_ & _ & ?)].
Qed.

Lemma storable_false v :
  storable v = false ↔ v = JNull ∨ accepts_text (py_str v) = false.
Proof.
  unfold storable, to_python. destruct v; split;
    first [by left | by right | by intros [?|?] ].
Qed.

(** ** C10 *)

(** C10. A ['status'] frame whose status value is none of ['online'],
    ['offline'], ['away'] is dropped silently: [receive] returns normally,
    the trace gains no action at all (no broadcast, no error frame, no
    close), and the consumer object and the world are unchanged. *)
Theorem receive_unknown_status_dropped (text_data : string)
    (d : gmap string jval) (c : Consumer) (w : World) :
  json_loads text_data = Some (JObj d) →
  d !! "type" = Some (JStr "status") →
  dict_get d "status" JNull ∉ [JStr "online"; JStr "offline"; JStr "away"] →
  receive text_data (c, w) = (Ok tt, (c, w)).
Proof.
  intros Hload Htype Hst. unfold receive. mred.
  rewrite Hload, (dict_get_Some _ _ _ _ Htype). cbn [jeq_str].
  change (String.eqb "status" "status") with true. cbv iota.
  by rewrite (presence_choice_None _ Hst).
Qed.

(** ** C6 *)

(** C6 (as the code has it). When the lookup of the message fails (the
    id cannot be used as a key, or no message has it), the transition
    does not occur: [update_message_status] writes nothing, broadcasts
    nothing, sends no frame, and only adds one ERROR log line.  It
    returns normally, so the initiator observes no failure. *)
Theorem failed_transition_only_logged (message_id : jval) (st : string)
    (c : Consumer) (w : World) :
  (to_pk message_id = None
   ∨ ∃ id, to_pk message_id = Some id ∧ messages (db w) !! id = None) →
  ∃ line,
    update_message_status message_id st (c, w) = (Ok tt, (c, emits w [Log ERROR line]))
    ∧ ¬ caller_observes_failure (Ok tt) (channel_name c) [Log ERROR line].
Proof.
  intros Hfail.
  assert (Hquiet : ∀ line, ¬ caller_observes_failure (Ok tt) (channel_name c) [Log ERROR line]).
  { intros line [[e He]|[e He]]; [discriminate|].
    cbn in He. by apply elem_of_nil in He. }
  destruct Hfail as [Hpk|(id & Hpk & Hm)].
  - eexists. split; [by apply update_message_status_bad_id|apply Hquiet].
  - eexists. split; [by eapply update_message_status_absent|apply Hquiet].
Qed.

(** ** C7 *)

Lemma get_user_from_token_invalid token_key d :
  invalid_credential token_key d → get_user_from_token token_key d = Ok AnonymousUser.
Proof.
  intros [->|(t & -> & Ht)]; [done|]. unfold get_user_from_token.
  destruct (String.eqb_spec t "") as [|Hne]; [done|].
  destruct Ht as [->|[->|(access_token & v & uid & -> & -> & Hpk & Hu)]]; [done..|].
  destruct v; try done; by rewrite Hpk, Hu.
Qed.

Lemma connect_unauthenticated c w :
  scope_user c = AnonymousUser →
  connect (c, w) =
    (Ok tt, (set_self_user AnonymousUser c,
             emits w [Log WARNING log_unauthenticated; Close (channel_name c) 4001])).
Proof.
  intros Hu. unfold connect. mred. rewrite Hu. mred. by rewrite <- !app_assoc.
Qed.

Lemma connect_no_such_room c w u r :
  scope_user c = Authenticated u →
  to_pk (JStr (scope_room_id c)) = Some r → rooms (db w) !! r = None →
  connect (c, w) =
    (Ok tt, (set_self_room_id (scope_room_id c) (set_self_user (Authenticated u) c),
             emits w [Log WARNING (log_no_such_room (scope_room_id c));
                      Close (channel_name c) 4004])).
Proof.
  intros Hu Hpk Hr. unfold connect, ChatRoom_objects_get. mred. rewrite Hu. mred.
  rewrite Hpk. mred. rewrite Hr. mred. by rewrite <- !app_assoc.
Qed.

Lemma connect_not_member c w u r rm :
  scope_user c = Authenticated u →
  to_pk (JStr (scope_room_id c)) = Some r → rooms (db w) !! r = Some rm →
  user_id u ∉ members rm →
  connect (c, w) =
    (Ok tt, (set_self_room r
               (set_self_room_id (scope_room_id c) (set_self_user (Authenticated u) c)),
             emits w [Log WARNING (log_not_member (username u) (scope_room_id c));
                      Close (channel_name c) 4002])).
Proof.
  intros Hu Hpk Hr Hm. unfold connect, ChatRoom_objects_get, members_exists. mred.
  rewrite Hu. mred. rewrite Hpk. mred. rewrite Hr. mred. rewrite Hr.
  rewrite bool_decide_eq_false_2 by done. mred. by rewrite <- !app_assoc.
Qed.

(** C7. A connection attempt whose credential the middleware rejects, or
    whose room does not exist, or whose user is not a member of the
    room, is closed by [connect] before it is accepted (no [accept], no
    broadcast, no room group, world unchanged but for the trace), with
    close codes 4001, 4004 and 4002 respectively, which are pairwise
    distinct. *)
Theorem connect_rejections (c : Consumer) (w : World) :
  (∀ token_key,
      invalid_credential token_key (db w) →
      get_user_from_token token_key (db w) = Ok (scope_user c) →
      rejected c w 4001)
  ∧ (∀ u r,
      scope_user c = Authenticated u →
      to_pk (JStr (scope_room_id c)) = Some r → rooms (db w) !! r = None →
      rejected c w 4004)
  ∧ (∀ u r rm,
      scope_user c = Authenticated u →
      to_pk (JStr (scope_room_id c)) = Some r → rooms (db w) !! r = Some rm →
      user_id u ∉ members rm →
      rejected c w 4002)
  ∧ NoDup [4001; 4004; 4002].
Proof.
  repeat split.
  - intros token_key Hbad Hscope.
    rewrite (get_user_from_token_invalid _ _ Hbad) in Hscope.
    injection Hscope as Hscope. symmetry in Hscope.
    eexists _, _. by rewrite (connect_unauthenticated _ _ Hscope).
  - intros u r Hu Hpk Hr.
    eexists _, _. by rewrite (connect_no_such_room _ _ _ _ Hu Hpk Hr).
  - intros u r rm Hu Hpk Hr Hm.
    eexists _, _. by rewrite (connect_not_member _ _ _ _ _ Hu Hpk Hr Hm).
  - repeat constructor; rewrite ?elem_of_cons, ?elem_of_nil; intros H;
      repeat destruct H as [H|H]; (lia || done).
Qed.

(** ** C5 *)

Lemma disconnect_run c w close_code g u rid :
  room_group_name c = Some g → self_user c = Some u → self_room_id c = Some rid →
  disconnect close_code (c, w) =
    (Ok tt, (c, mkWorld (db w)
                  (alter (λ s, s ∖ {[channel_name c]}) g (groups w))
                  (trace w ++ teardown g (channel_name c) (username_of u) rid close_code
                                (clock w) (ticks w))
                  (clock w) (S (S (S (ticks w)))))).
Proof.
  intros Hg Hu Hrid. unfold disconnect, update_user_status, update_typing_status.
  mrun. unfold teardown. by rewrite <- !app_assoc.
Qed.

(** A connection that never got a room group is torn down silently. *)
Lemma disconnect_not_joined c w close_code :
  room_group_name c = None → disconnect close_code (c, w) = (Ok tt, (c, w)).
Proof. intros Hg. unfold disconnect. mred. by rewrite Hg. Qed.

(** C5 (as the code has it). For a connected session, [disconnect]
    performs in order: the presence-offline broadcast, the typing-false
    broadcast, the leave broadcast, the [group_discard], and leaves the
    consumer object as it was.  Nothing records that the teardown ran,
    so a second invocation repeats the whole sequence: two invocations
    give two leave broadcasts and two [group_discard] calls (the second
    of which finds the channel already removed from the group). *)
Theorem disconnect_ordered_and_repeated (c : Consumer) (w : World)
    (code1 code2 : Z) (g rid : string) (u : principal) :
  room_group_name c = Some g → self_user c = Some u → self_room_id c = Some rid →
  let ch := channel_name c in
  let first := teardown g ch (username_of u) rid code1 (clock w) (ticks w) in
  let second := teardown g ch (username_of u) rid code2 (clock w) (3 + ticks w) in
  let s1 := (disconnect code1 (c, w)).2 in
  let s2 := (disconnect code2 s1).2 in
  fst s1 = c ∧ trace (snd s1) = trace w ++ first
  ∧ fst s2 = c ∧ trace (snd s2) = trace w ++ first ++ second
  ∧ leave_broadcasts (first ++ second) = [username_of u; username_of u]
  ∧ discards (first ++ second) = [(g, ch); (g, ch)]
  ∧ (ch ∉ group_members (snd s1) g)
  ∧ groups (snd s2) = groups (snd s1).
Proof.
  intros Hg Hu Hrid ch first second s1 s2.
  subst s2 s1. rewrite (disconnect_run _ _ _ _ _ _ Hg Hu Hrid). cbn [snd].
  rewrite (disconnect_run _ _ _ _ _ _ Hg Hu Hrid). cbn [fst snd trace groups clock ticks].
  repeat split.
  - by rewrite <- app_assoc.
  - unfold group_members. cbn [groups]. rewrite lookup_alter_eq.
    destruct (groups w !! g) as [chs|]; cbn; [|apply not_elem_of_empty].
    rewrite elem_of_difference, elem_of_singleton. intros [_ Hne]. by apply Hne.
  - apply map_eq. intros g'. destruct (decide (g' = g)) as [->|Hne].
    + rewrite !lookup_alter_eq. destruct (groups w !! g) as [chs|]; cbn; [|done].
      f_equal. apply set_eq. intros x. rewrite !elem_of_difference.
      split; [by intros [Hx _]|by intros [Hx Hne]].
    + by rewrite !lookup_alter_ne.
Qed.

(** ** C4 *)

Lemma set_status_same m : set_status (status m) m = m.
Proof. by destruct m. Qed.

Lemma set_messages_same d : set_messages (messages d) d = d.
Proof. by destruct d. Qed.

(** Saving a row with the status it already has leaves the table as it
    was. *)
Lemma resave_same_status w id m :
  messages (db w) !! id = Some m →
  set_messages (<[id := set_status (status m) m]> (messages (db w))) (db w) = db w.
Proof.
  intros Hm. rewrite set_status_same, (insert_id _ _ _ Hm). apply set_messages_same.
Qed.

Lemma receive_read_receipt text_data d v c w :
  json_loads text_data = Some (JObj d) →
  d !! "type" = Some (JStr "read_receipt") →
  d !! "message_id" = Some v → truthy v = true →
  receive text_data (c, w) =
    try_catch (update_message_status v "seen")
      (λ e, log ERROR (log_receive_error e) ;; send (error_frame e)) (c, w).
Proof.
  intros Hload Htype Hid Htruthy. unfold receive. unfold try_catch at 1.
  rewrite Hload, (dict_get_Some _ _ _ _ Htype), (dict_get_Some _ _ _ _ Hid).
  cbn [jeq_str].
  change (String.eqb "read_receipt" "status") with false.
  change (String.eqb "read_receipt" "typing") with false.
  change (String.eqb "read_receipt" "read_receipt") with true.
  cbv beta iota zeta. by rewrite Htruthy.
Qed.

(** C4 (as the code has it). A read receipt for a message that is already
    ['seen'] is not an error and leaves the stored tables exactly as they
    were, but it is not skipped: every such request saves the row again
    and broadcasts one more [message_status] event.  Two requests give two
    saves and two broadcasts. *)
Theorem seen_again_repeats_write_and_broadcast (text_data : string)
    (d : gmap string jval) (v : jval) (id : Z) (m : Message)
    (c : Consumer) (w : World) (u : User) (rid : string) (r : Z) (g : string) :
  active c u rid r g →
  json_loads text_data = Some (JObj d) →
  d !! "type" = Some (JStr "read_receipt") →
  d !! "message_id" = Some v → truthy v = true →
  to_pk v = Some id → messages (db w) !! id = Some m → status m = "seen" →
  let once n := [DbSave id "seen";
                 GroupSend g (message_status_ev v "seen" (username u) (clock w n));
                 Log INFO (log_status_updated v "seen" (username u))] in
  receive text_data (c, w) =
    (Ok tt, (c, mkWorld (db w) (groups w) (trace w ++ once (ticks w))
                  (clock w) (S (ticks w))))
  ∧ run_calls [Receive text_data; Receive text_data] (c, w) =
      (c, mkWorld (db w) (groups w) (trace w ++ once (ticks w) ++ once (S (ticks w)))
            (clock w) (S (S (ticks w)))).
Proof.
  intros [Hu _ _ Hg] Hload Htype Hid Htruthy Hpk Hm Hseen once.
  assert (Hone : ∀ w', db w' = db w → clock w' = clock w →
            receive text_data (c, w') =
              (Ok tt, (c, mkWorld (db w) (groups w') (trace w' ++ once (ticks w'))
                            (clock w) (S (ticks w'))))).
  { intros w' Hdb Hclk.
    rewrite (receive_read_receipt _ _ _ _ _ Hload Htype Hid Htruthy).
    unfold try_catch.
    rewrite (update_message_status_found _ _ _ _ _ m _ _ Hpk) by (by rewrite ?Hdb).
    rewrite Hdb, Hclk, <- Hseen, (resave_same_status _ _ _ Hm). by rewrite Hseen. }
  split; [by apply Hone|].
  cbn [run_calls foldl run_call]. rewrite (Hone w) by done. cbn [snd].
  rewrite Hone by done. cbn [snd trace ticks groups]. by rewrite <- app_assoc.
Qed.

(** ** C1 *)

(** A request for a stored message overwrites its status, whatever the
    status was and whether or not the session can broadcast. *)
Lemma update_message_status_stores c w id st m :
  messages (db w) !! id = Some m →
  ∃ w', update_message_status (JInt id) st (c, w) = (Ok tt, (c, w'))
        ∧ messages (db w') = <[id := set_status st m]> (messages (db w)).
Proof.
  intros Hm. unfold update_message_status, Message_objects_get, Message_save, to_pk.
  mrun.
  destruct (room_group_name c); mred; [|by eexists].
  destruct (self_user c); mred; by eexists.
Qed.

Lemma observed_statuses_requests c w id reqs m :
  messages (db w) !! id = Some m →
  observed_statuses id reqs (c, w) = Some <$> reqs.
Proof.
  revert w m. induction reqs as [|st reqs IH]; intros w m Hm; [done|].
  destruct (update_message_status_stores c w id st m Hm) as (w' & Hrun & Hms).
  cbn [observed_statuses fmap list_fmap]. rewrite Hrun. cbn [snd].
  assert (Hm' : messages (db w') !! id = Some (set_status st m))
    by (rewrite Hms; apply lookup_insert_eq).
  f_equal; [|by eapply IH].
  unfold stored_status. by rewrite Hm'.
Qed.

(** C1 (as the code has it). [update_message_status] applies no order
    check: after each request for a stored message the stored status is
    the requested one.  The stored status is therefore non-decreasing in
    [sending < sent < delivered < seen] exactly along request sequences
    that are themselves non-decreasing from the current status. *)
Theorem status_is_last_request (id : Z) (reqs : list string) (m : Message)
    (c : Consumer) (w : World) :
  messages (db w) !! id = Some m →
  observed_statuses id reqs (c, w) = Some <$> reqs
  ∧ (monotone_run id reqs (c, w) ↔ Sorted status_le (status m :: reqs)).
Proof.
  intros Hm. pose proof (observed_statuses_requests c w id reqs m Hm) as Hobs.
  split; [done|]. unfold monotone_run, stored_status. cbn [snd].
  rewrite Hm, Hobs. cbn [fmap option_fmap option_map].
  change (Some (status m) :: (Some <$> reqs)) with (Some <$> (status m :: reqs)).
  split.
  - intros (sts & Heq & Hsorted).
    by apply (inj (fmap Some)) in Heq as ->.
  - intros Hsorted. by exists (status m :: reqs).
Qed.

(** ** C9 *)

Lemma foldr_max_bound (l : list Z) (k : Z) : k ∈ l → k ≤ foldr Z.max 0 l.
Proof.
  induction l as [|x l IH]; [by intros ?%elem_of_nil|].
  rewrite elem_of_cons. cbn [foldr]. intros [->|Hk]; [lia|].
  specialize (IH Hk). lia.
Qed.

(** The key given to a new row is not in use. *)
Lemma next_pk_fresh {A} (table : gmap Z A) : table !! next_pk table = None.
Proof.
  destruct (table !! next_pk table) as [x|] eqn:Hx; [exfalso|done].
  apply elem_of_map_to_list in Hx.
  assert (Hin : next_pk table ∈ (map_to_list table).*1).
  { apply list_elem_of_fmap. by exists (next_pk table, x). }
  apply foldr_max_bound in Hin. unfold next_pk in Hin. lia.
Qed.

(** A frame whose ['type'] is none of the three early-return kinds reaches
    the new-message code. *)
Lemma receive_falls_through text_data d c w :
  json_loads text_data = Some (JObj d) →
  d !! "type" ∉ [Some (JStr "status"); Some (JStr "typing"); Some (JStr "read_receipt")] →
  receive text_data (c, w) =
    try_catch (send_new_message d)
      (λ e, log ERROR (log_receive_error e) ;; send (error_frame e)) (c, w).
Proof.
  intros Hload Htype. unfold receive. unfold try_catch at 1. rewrite Hload.
  assert (Hne : ∀ lit, lit ∈ ["status"; "typing"; "read_receipt"] →
            jeq_str (dict_get d "type" (JStr "message")) lit = false).
  { intros lit Hlit. apply jeq_str_false. intros Heq.
    unfold dict_get in Heq. destruct (d !! "type") as [v|] eqn:Hv; cbn in Heq.
    - subst v. apply Htype. rewrite !elem_of_cons in Hlit. rewrite !elem_of_cons.
      destruct Hlit as [->|[->|[->|Hlit]]]; [by left|by right; left|by right; right; left|].
      by apply elem_of_nil in Hlit.
    - injection Heq as <-. rewrite !elem_of_cons in Hlit.
      destruct Hlit as [Hlit|[Hlit|[Hlit|Hlit]]]; try discriminate.
      by apply elem_of_nil in Hlit. }
  cbv zeta.
  rewrite !Hne; [done|..]; rewrite !elem_of_cons; auto.
Qed.

Lemma send_new_message_run d c w u rid r g :
  active c u rid r g →
  storable (dict_get d "message" (JStr "")) = true →
  let message_content := dict_get d "message" (JStr "") in
  let id := next_pk (messages (db w)) in
  let created := mkMessage (py_str message_content) u r "sending" (clock w (S (ticks w))) in
  send_new_message d (c, w) =
    (Ok tt,
     (c, mkWorld
           (set_messages (<[id := set_status "sent" created]> (messages (db w))) (db w))
           (groups w)
           (trace w ++
              [Log INFO (log_received (username u) rid message_content);
               GroupSend g (typing_status_ev (username u) (JBool false) (clock w (ticks w)));
               DbCreate id created;
               GroupSend g (chat_message_ev (Some (JInt id)) message_content (username u)
                              "message" (Some "sent") (timestamp created));
               DbSave id "sent";
               GroupSend g (message_status_ev (JInt id) "sent" (username u)
                              (clock w (S (S (ticks w)))));
               Log INFO (log_status_updated (JInt id) "sent" (username u))])
           (clock w) (S (S (S (ticks w)))))).
Proof.
  intros [Hu Hrid Hr Hg] Hstorable message_content id created.
  apply storable_true in Hstorable as (_ & Hpy & Haccepts).
  unfold send_new_message, update_typing_status, Message_objects_create,
    update_message_status, Message_objects_get, Message_save, to_pk.
  fold message_content in Hpy, Haccepts |- *.
  mrun. cbn [username_of]. rewrite lookup_insert_eq. mrun.
  rewrite insert_insert_eq. fold id. cbn [username_of timestamp].
  by rewrite <- !app_assoc.
Qed.

(** C9 (as the code has it). On a connected session, a frame whose
    ['type'] is absent or is none of ['status'], ['typing'],
    ['read_receipt'] takes the new-message path, with [content] the
    frame's ['message'] field (the empty string when absent).  When the
    insert succeeds, that is, when the content is not null and the
    storage accepts its text, a new row is created under an unused key
    with sender, room and status ['sending'], holding the text of the
    content: the string itself, and [str(value)] for a value that is not
    a string.  A [chat_message] event carrying the content as it came in
    the frame is then broadcast to the room group. *)
Theorem other_frames_send_a_message (text_data : string) (d : gmap string jval)
    (c : Consumer) (w : World) (u : User) (rid : string) (r : Z) (g : string) :
  active c u rid r g →
  json_loads text_data = Some (JObj d) →
  d !! "type" ∉ [Some (JStr "status"); Some (JStr "typing"); Some (JStr "read_receipt")] →
  storable (dict_get d "message" (JStr "")) = true →
  let message_content := dict_get d "message" (JStr "") in
  let id := next_pk (messages (db w)) in
  let created := mkMessage (py_str message_content) u r "sending" (clock w (S (ticks w))) in
  (d !! "message" = None → message_content = JStr "")
  ∧ message_content ≠ JNull
  ∧ (∀ s, message_content = JStr s → content created = s)
  ∧ (∀ n, message_content = JInt n → content created = pretty n)
  ∧ messages (db w) !! id = None
  ∧ ∃ w', receive text_data (c, w) = (Ok tt, (c, w'))
          ∧ messages (db w') !! id = Some (set_status "sent" created)
          ∧ trace w' = trace w ++
              [Log INFO (log_received (username u) rid message_content);
               GroupSend g (typing_status_ev (username u) (JBool false) (clock w (ticks w)));
               DbCreate id created;
               GroupSend g (chat_message_ev (Some (JInt id)) message_content (username u)
                              "message" (Some "sent") (timestamp created));
               DbSave id "sent";
               GroupSend g (message_status_ev (JInt id) "sent" (username u)
                              (clock w (S (S (ticks w)))));
               Log INFO (log_status_updated (JInt id) "sent" (username u))].
Proof.
  intros Hactive Hload Htype Hstorable message_content id created.
  split; [intros Hnone; by apply dict_get_None|].
  split; [by apply storable_true in Hstorable as (? & _)|].
  split; [by intros s ->|]. split; [by intros n ->|].
  split; [apply next_pk_fresh|].
  eexists. rewrite (receive_falls_through _ _ _ _ Hload Htype). unfold try_catch.
  rewrite (send_new_message_run _ _ _ _ _ _ _ Hactive Hstorable).
  split; [reflexivity|]. split; [|reflexivity].
  cbn [db messages set_messages]. apply lookup_insert_eq.
Qed.

(** ** C8 *)

(** A [chat_message] event whose user is the consumer's own is written to
    the socket and nothing else happens. *)
Lemma chat_message_own c w p mid msg mt st ts :
  self_user c = Some p →
  chat_message mid msg (username_of p) mt st ts (c, w) =
    (Ok tt, (c, emits w [Send (channel_name c)
                           (chat_message_frame mid msg (username_of p) mt st ts)])).
Proof.
  intros Hp. unfold chat_message. mred.
  destruct (String.eqb mt "message"); [|by mred].
  mrun. rewrite String.eqb_refl. by mred.
Qed.

(** C8. When a connected user sends a new message, the [chat_message]
    event goes to the room group, of which the sender's own channel is a
    member; delivered to the sender's consumer it is written to the
    sender's socket as a [chat.message] frame with status ['sent'], and
    that is all: neither [receive] nor the echo saves ['delivered'] for
    the sender's own message, and the replay on a later join skips the
    sender's own rows. *)
Theorem own_message_echoed_not_delivered (text_data : string) (d : gmap string jval)
    (c : Consumer) (w : World) (u : User) (rid : string) (r : Z) (g : string) :
  active c u rid r g →
  channel_name c ∈ group_members w g →
  json_loads text_data = Some (JObj d) →
  d !! "type" ∉ [Some (JStr "status"); Some (JStr "typing"); Some (JStr "read_receipt")] →
  storable (dict_get d "message" (JStr "")) = true →
  let message_content := dict_get d "message" (JStr "") in
  let id := next_pk (messages (db w)) in
  let ts := clock w (S (ticks w)) in
  let ev := chat_message_ev (Some (JInt id)) message_content (username u)
              "message" (Some "sent") ts in
  ∃ w' acts,
    receive text_data (c, w) = (Ok tt, (c, w'))
    ∧ trace w' = trace w ++ acts
    ∧ (g, ev) ∈ broadcasts acts
    ∧ db_writes acts = [(id, "sent")]
    ∧ channel_name c ∈ group_members w' g
    ∧ (∀ w2, dispatch ev (c, w2) =
        (Ok tt, (c, emits w2 [Send (channel_name c)
                                (chat_message_frame (Some (JInt id)) message_content
                                   (username u) "message" (Some "sent") ts)])))
    ∧ (∀ row : Z * Message, sender row.2 = u → needs_delivery u row = false).
Proof.
  intros Hactive Hin Hload Htype Hstorable message_content id ts ev.
  eexists _, _. rewrite (receive_falls_through _ _ _ _ Hload Htype). unfold try_catch.
  rewrite (send_new_message_run _ _ _ _ _ _ _ Hactive Hstorable).
  split; [reflexivity|]. split; [reflexivity|].
  split; [cbn; rewrite !elem_of_cons; auto|].
  split; [reflexivity|]. split; [exact Hin|]. split.
  - intros w2. destruct Hactive as [Hu _ _ _].
    exact (chat_message_own c w2 (Authenticated u) _ _ _ _ _ Hu).
  - intros row Hrow. unfold needs_delivery. by rewrite Hrow, Z.eqb_refl.
Qed.

(** ** C2 *)

Lemma follows_record_app prev acts more :
  follows_record prev acts → well_ordered more → follows_record prev (acts ++ more).
Proof.
  revert prev. induction acts as [|a acts IH]; intros prev Hacts Hmore; [apply Hmore|].
  destruct Hacts as [Ha Hacts]. split; [done|by apply IH].
Qed.

Lemma well_ordered_nil : well_ordered [].
Proof. by intros prev. Qed.

Lemma well_ordered_app acts more :
  well_ordered acts → well_ordered more → well_ordered (acts ++ more).
Proof. intros Hacts Hmore prev. by apply follows_record_app. Qed.

Lemma well_ordered_one a : (∀ prev, justified prev a) → well_ordered [a].
Proof. intros Ha prev. by split. Qed.

Lemma orderly_ret {A} (a : A) : orderly (mret a).
Proof. intros s. exists []. cbn. by rewrite app_nil_r. Qed.

Lemma orderly_raise {A} (e : exn) : orderly (@raise A e).
Proof. intros s. exists []. cbn. by rewrite app_nil_r. Qed.

Lemma orderly_bind {A B} (m : M A) (k : A → M B) :
  orderly m → (∀ a, orderly (k a)) → orderly (m ≫= k).
Proof.
  intros Hm Hk s. unfold mbind, M_bind, bind.
  destruct (Hm s) as (acts1 & E1 & W1). destruct (m s) as [[a|e] s1]; cbn [snd] in *.
  - destruct (Hk a s1) as (acts2 & E2 & W2). exists (acts1 ++ acts2).
    rewrite E2, E1, app_assoc. auto using well_ordered_app.
  - by exists acts1.
Qed.

Lemma orderly_try_catch {A} (m : M A) (h : exn → M A) :
  orderly m → (∀ e, orderly (h e)) → orderly (try_catch m h).
Proof.
  intros Hm Hh s. unfold try_catch.
  destruct (Hm s) as (acts1 & E1 & W1). destruct (m s) as [[a|e] s1]; cbn [snd] in *.
  - by exists acts1.
  - destruct (Hh e s1) as (acts2 & E2 & W2). exists (acts1 ++ acts2).
    rewrite E2, E1, app_assoc. auto using well_ordered_app.
Qed.

Lemma orderly_get_self : orderly get_self.
Proof. intros s. exists []. cbn. by rewrite app_nil_r. Qed.

Lemma orderly_get_world : orderly get_world.
Proof. intros s. exists []. cbn. by rewrite app_nil_r. Qed.

Lemma orderly_modify_self f : orderly (modify_self f).
Proof. intros s. exists []. cbn. by rewrite app_nil_r. Qed.

Lemma orderly_modify_world f :
  (∀ w, trace (f w) = trace w) → orderly (modify_world f).
Proof. intros Hf s. exists []. cbn. by rewrite Hf, app_nil_r. Qed.

Lemma orderly_emit a : (∀ prev, justified prev a) → orderly (emit a).
Proof. intros Ha s. exists [a]. split; [done|by apply well_ordered_one]. Qed.

Lemma orderly_attr {A} name (field : Consumer → option A) : orderly (attr name field).
Proof.
  apply orderly_bind; [apply orderly_get_self|].
  intros c. destruct (field c); [apply orderly_ret|apply orderly_raise].
Qed.

Lemma orderly_timezone_now : orderly timezone_now.
Proof.
  apply orderly_bind; [apply orderly_get_world|intros w].
  apply orderly_bind; [by apply orderly_modify_world|intros _]. apply orderly_ret.
Qed.

Lemma orderly_log lvl line : orderly (log lvl line).
Proof. by apply orderly_emit. Qed.

Lemma orderly_send f : orderly (send f).
Proof. apply orderly_bind; [apply orderly_get_self|intros c]. by apply orderly_emit. Qed.

Lemma orderly_accept : orderly accept.
Proof. apply orderly_bind; [apply orderly_get_self|intros c]. by apply orderly_emit. Qed.

Lemma orderly_close code : orderly (close code).
Proof. apply orderly_bind; [apply orderly_get_self|intros c]. by apply orderly_emit. Qed.

Lemma orderly_group_add g ch : orderly (group_add g ch).
Proof.
  apply orderly_bind; [by apply orderly_modify_world|intros _]. by apply orderly_emit.
Qed.

Lemma orderly_group_discard g ch : orderly (group_discard g ch).
Proof.
  apply orderly_bind; [by apply orderly_modify_world|intros _]. by apply orderly_emit.
Qed.

Lemma orderly_group_send g ev :
  (∀ prev, justified prev (GroupSend g ev)) → orderly (group_send g ev).
Proof. apply orderly_emit. Qed.

Lemma orderly_for_each {A} (l : list A) (body : A → M unit) :
  (∀ x, orderly (body x)) → orderly (for_each l body).
Proof.
  intros Hbody. induction l as [|x l IH]; cbn [for_each]; [apply orderly_ret|].
  apply orderly_bind; [apply Hbody|by intros _].
Qed.

(** The save comes first, the broadcast of the saved status right after
    it; on a failed lookup there is neither. *)
Lemma orderly_update_message_status v st : orderly (update_message_status v st).
Proof.
  intros [c w]. unfold update_message_status, Message_objects_get, Message_save. mred.
  destruct (to_pk v) as [id|] eqn:Hpk; mred;
    [|eexists; split; [reflexivity|by apply well_ordered_one]].
  destruct (messages (db w) !! id) as [m|]; mred;
    [|eexists; split; [reflexivity|by apply well_ordered_one]].
  destruct (room_group_name c) as [g|]; mred.
  2:{ exists [DbSave id st; Log ERROR (log_status_error (AttributeError "room_group_name"))].
      split; [by rewrite <- app_assoc|]. by intros prev. }
  destruct (self_user c) as [u|]; mred.
  2:{ exists [DbSave id st; Log ERROR (log_status_error (AttributeError "user"))].
      split; [by rewrite <- app_assoc|]. by intros prev. }
  exists [DbSave id st;
          GroupSend g (message_status_ev v st (username_of u) (clock w (ticks w)));
          Log INFO (log_status_updated v st (username_of u))].
  split; [by rewrite <- !app_assoc|].
  intros prev. repeat split. by exists id.
Qed.

Lemma orderly_update_user_status st : orderly (update_user_status st).
Proof.
  unfold update_user_status.
  apply orderly_bind; [apply orderly_attr|intros g].
  apply orderly_bind; [apply orderly_attr|intros u].
  apply orderly_bind; [apply orderly_timezone_now|intros ts].
  by apply orderly_group_send.
Qed.

Lemma orderly_update_typing_status is_typing : orderly (update_typing_status is_typing).
Proof.
  unfold update_typing_status.
  apply orderly_bind; [apply orderly_attr|intros g].
  apply orderly_bind; [apply orderly_attr|intros u].
  apply orderly_bind; [apply orderly_timezone_now|intros ts].
  by apply orderly_group_send.
Qed.

(** Decompose a handler along its binds, handlers and branches. *)
Ltac orderly_step :=
  first
    [ apply orderly_ret | apply orderly_raise
    | apply orderly_attr | apply orderly_timezone_now
    | apply orderly_log | apply orderly_send | apply orderly_accept
    | apply orderly_close | apply orderly_group_add | apply orderly_group_discard
    | apply orderly_get_self | apply orderly_get_world | apply orderly_modify_self
    | apply orderly_update_message_status
    | apply orderly_update_user_status | apply orderly_update_typing_status
    | apply orderly_group_send; by (intros ?; cbn; try done; intros [=])
    | apply orderly_for_each; intros ?
    | match goal with
      | |- orderly (mbind _ _) => apply orderly_bind; [|intros ?]
      | |- orderly (try_catch _ _) => apply orderly_try_catch; [|intros ?]
      end
    | progress cbv zeta
    | match goal with
      | |- orderly (match ?x with _ => _ end) => destruct x
      end ].
Ltac orderly_auto := repeat orderly_step.

(** The new-message path: the row is created, then the message is
    broadcast, then ['sent'] is saved and announced. *)
Lemma orderly_send_new_message d : orderly (send_new_message d).
Proof.
  unfold send_new_message. cbv zeta.
  apply orderly_bind; [orderly_auto|intros u].
  apply orderly_bind; [orderly_auto|intros rid].
  apply orderly_bind; [orderly_auto|intros _].
  apply orderly_bind; [apply orderly_update_typing_status|intros _].
  apply orderly_bind; [orderly_auto|intros r].
  apply orderly_bind; [orderly_auto|intros ts].
  intros [c w]. destruct u as [|usr]; [exists []; by rewrite app_nil_r|].
  unfold Message_objects_create. mred.
  destruct (to_python _) as [text|] eqn:Hpy; mred; [|exists []; by rewrite app_nil_r].
  destruct (accepts_text text); mred; [|exists []; by rewrite app_nil_r].
  destruct (room_group_name c) as [g|]; mred;
    [|eexists; split; [reflexivity|by apply well_ordered_one]].
  match goal with
  | |- context [update_message_status ?v ?st ?s] =>
      destruct (orderly_update_message_status v st s) as (acts & E & W)
  end.
  eexists (_ :: _ :: acts). rewrite E. cbn [snd trace]. split.
  { rewrite <- !app_assoc. reflexivity. }
  intros prev. split; [done|]. split; [|apply W].
  intros _. eexists _, _. repeat split. exact Hpy.
Qed.

Lemma orderly_connect : orderly connect.
Proof.
  unfold connect, replay_message, ChatRoom_objects_get, members_exists.
  orderly_auto.
Qed.

Lemma orderly_disconnect close_code : orderly (disconnect close_code).
Proof.
  unfold disconnect. orderly_auto.
Qed.

Lemma orderly_receive text_data : orderly (receive text_data).
Proof.
  unfold receive. orderly_auto; apply orderly_send_new_message.
Qed.

Lemma orderly_dispatch ev : orderly (dispatch ev).
Proof.
  destruct ev; cbn [dispatch];
    unfold user_status, typing_status, message_status, chat_message; orderly_auto.
Qed.

Lemma orderly_run_call k : orderly (run_call k).
Proof.
  destruct k; cbn [run_call];
    auto using orderly_connect, orderly_disconnect, orderly_receive, orderly_dispatch.
Qed.

Lemma run_calls_follow_record ks s :
  publish_follows_record (trace (snd s)) →
  publish_follows_record (trace (snd (run_calls ks s))).
Proof.
  unfold run_calls. revert s.
  induction ks as [|k ks IH]; intros s Hs; [done|].
  cbn [foldl]. apply IH.
  destruct (orderly_run_call k s) as (acts & E & W). rewrite E.
  by apply follows_record_app.
Qed.

(** C2 (as the code has it). Along any sequence of calls into a consumer,
    every [message_status] broadcast directly follows the save of the
    status it carries (this includes the one for ['sent'] on a new
    message), and none is made without that save.  The [chat_message]
    broadcast of a new message directly follows the creation of its row:
    the row is durable, but holds ['sending'] while the event says
    ['sent']. *)
Theorem status_events_follow_their_write (ks : list call) (c : Consumer) (w : World) :
  publish_follows_record (trace w) →
  publish_follows_record (trace (snd (run_calls ks (c, w)))).
Proof. apply (run_calls_follow_record ks (c, w)). Qed.

(** ** C3 *)

#[export] Instance newer_first_total : Total newer_first.
Proof. intros a b. unfold newer_first. lia. Qed.

#[export] Instance newer_first_trans : Transitive newer_first.
Proof. intros a b c. unfold newer_first. lia. Qed.

Lemma StronglySorted_take {A} (R : relation A) (l : list A) n :
  StronglySorted R l → StronglySorted R (take n l).
Proof.
  intros Hl. rewrite <- (take_drop n l) in Hl.
  by apply StronglySorted_app in Hl as (_ & Htake & _).
Qed.

Lemma StronglySorted_reverse {A} (R : relation A) (l : list A) :
  StronglySorted R l → StronglySorted (flip R) (reverse l).
Proof.
  induction 1 as [|x l Hl IH Hx]; [constructor|].
  rewrite reverse_cons. apply StronglySorted_app_2; [|done|repeat constructor].
  intros y z Hy Hz. apply list_elem_of_singleton in Hz as ->.
  rewrite elem_of_reverse in Hy. rewrite Forall_forall in Hx. unfold flip. by apply Hx.
Qed.

Lemma sends_app a b : sends (a ++ b) = sends a ++ sends b.
Proof. apply omap_app. Qed.
Lemma db_writes_app a b : db_writes (a ++ b) = db_writes a ++ db_writes b.
Proof. apply omap_app. Qed.
Lemma accepts_app a b : accepts (a ++ b) = accepts a ++ accepts b.
Proof. apply omap_app. Qed.
Lemma close_codes_app a b : close_codes (a ++ b) = close_codes a ++ close_codes b.
Proof. apply omap_app. Qed.
Lemma message_broadcasts_app a b :
  message_broadcasts (a ++ b) = message_broadcasts a ++ message_broadcasts b.
Proof. apply omap_app. Qed.

Lemma mark_delivered_is_Some me ms row k :
  is_Some (mark_delivered me ms row !! k) ↔ is_Some (ms !! k).
Proof.
  unfold mark_delivered. destruct (needs_delivery me row); [|done].
  destruct (decide (row.1 = k)) as [<-|Hne].
  - rewrite lookup_alter_eq. by rewrite fmap_is_Some.
  - by rewrite lookup_alter_ne.
Qed.

(** One iteration of the replay loop. *)
Lemma replay_message_run c w u g row :
  room_group_name c = Some g → self_user c = Some (Authenticated u) →
  is_Some (messages (db w) !! row.1) →
  ∃ w', replay_message u row (c, w) = (Ok tt, (c, w')) ∧ replayed c u [row] w w'.
Proof.
  intros Hg Hu [m Hm]. unfold replay_message, replayed. mred.
  unfold mark_delivered. cbn [foldl fmap list_fmap filter list_filter].
  destruct (needs_delivery u row) eqn:Hneed.
  - match goal with
    | |- context [update_message_status ?v ?st (c, ?w0)] =>
        rewrite (update_message_status_found c w0 v st row.1 m g (Authenticated u)
                   eq_refl Hm Hg Hu)
    end.
    eexists. split; [reflexivity|]. eexists. cbn [trace groups clock db users rooms messages].
    split; [by rewrite <- app_assoc|]. cbn.
    repeat split. apply map_eq. intros k.
    destruct (decide (row.1 = k)) as [<-|Hne].
    + by rewrite lookup_insert_eq, lookup_alter_eq, Hm.
    + by rewrite lookup_insert_ne, lookup_alter_ne.
  - eexists. split; [reflexivity|]. eexists. cbn [trace groups clock db users rooms messages].
    split; [reflexivity|]. cbn. by repeat split.
Qed.

Lemma replayed_nil c u w : replayed c u [] w w.
Proof. exists []. rewrite app_nil_r. by repeat split. Qed.

Lemma replayed_app c u rows1 rows2 w w1 w2 :
  replayed c u rows1 w w1 → replayed c u rows2 w1 w2 → replayed c u (rows1 ++ rows2) w w2.
Proof.
  intros (a1 & Et1 & Es1 & Ed1 & Ea1 & Ec1 & Em1 & Eg1 & Ek1 & Eu1 & Er1 & Ems1)
         (a2 & Et2 & Es2 & Ed2 & Ea2 & Ec2 & Em2 & Eg2 & Ek2 & Eu2 & Er2 & Ems2).
  exists (a1 ++ a2).
  rewrite sends_app, db_writes_app, accepts_app, close_codes_app, message_broadcasts_app.
  rewrite Et2, Et1, Es1, Es2, Ed1, Ed2, Ea1, Ea2, Ec1, Ec2, Em1, Em2.
  rewrite filter_app, !fmap_app, foldl_app, app_assoc.
  repeat split; congruence.
Qed.

(** The whole loop, for rows that are all in the table. *)
Lemma replay_loop c u g rows w :
  room_group_name c = Some g → self_user c = Some (Authenticated u) →
  (∀ row, row ∈ rows → is_Some (messages (db w) !! row.1)) →
  ∃ w', for_each rows (replay_message u) (c, w) = (Ok tt, (c, w')) ∧ replayed c u rows w w'.
Proof.
  intros Hg Hu. revert w. induction rows as [|row rows IH]; intros w Hrows.
  { exists w. split; [done|apply replayed_nil]. }
  destruct (replay_message_run c w u g row Hg Hu) as (w1 & Hrun1 & Hpost1).
  { apply Hrows. by left. }
  destruct (IH w1) as (w2 & Hrun2 & Hpost2).
  { intros row' Hrow'.
    destruct Hpost1 as (_ & _ & _ & _ & _ & _ & _ & _ & _ & _ & _ & ->). cbn [foldl].
    apply mark_delivered_is_Some, Hrows. by right. }
  exists w2. split.
  - cbn [for_each]. unfold mbind, M_bind, bind. by rewrite Hrun1.
  - by apply (replayed_app c u [row] rows w w1 w2).
Qed.

(** Rows outside [rows] are not touched by the loop; a row in [rows]
    ends up ['delivered'] exactly when it needed delivery. *)
Lemma foldl_mark_delivered_other me rows ms k :
  k ∉ rows.*1 → foldl (mark_delivered me) ms rows !! k = ms !! k.
Proof.
  revert ms. induction rows as [|row rows IH]; intros ms Hk; [done|].
  cbn [foldl]. rewrite fmap_cons, not_elem_of_cons in Hk. destruct Hk as [Hne Hk].
  rewrite IH by done. unfold mark_delivered.
  destruct (needs_delivery me row); [|done]. by rewrite lookup_alter_ne.
Qed.

Lemma foldl_mark_delivered_lookup me rows ms row :
  NoDup rows.*1 → row ∈ rows → ms !! row.1 = Some row.2 →
  foldl (mark_delivered me) ms rows !! row.1 =
    Some (if needs_delivery me row then set_status "delivered" row.2 else row.2).
Proof.
  revert ms. induction rows as [|x rows IH]; intros ms Hnd Hin Hrow.
  { by apply elem_of_nil in Hin. }
  rewrite fmap_cons in Hnd. apply NoDup_cons in Hnd as [Hx Hnd].
  cbn [foldl]. apply elem_of_cons in Hin as [->|Hin].
  - rewrite foldl_mark_delivered_other by done. unfold mark_delivered.
    destruct (needs_delivery me x); [|done]. by rewrite lookup_alter_eq, Hrow.
  - apply IH; [done..|].
    assert (row.1 ≠ x.1).
    { intros Heq. apply Hx. rewrite <- Heq. by apply list_elem_of_fmap_2. }
    unfold mark_delivered. destruct (needs_delivery me x); [|done].
    by rewrite lookup_alter_ne.
Qed.

(** The replayed rows are rows of the table, of this room, without
    repetition. *)
Lemma room_messages_stored d r row :
  row ∈ room_messages d r ↔ messages d !! row.1 = Some row.2 ∧ room row.2 = r.
Proof.
  unfold room_messages. rewrite list_elem_of_filter. destruct row as [id m]. cbn [fst snd].
  rewrite elem_of_map_to_list. split; by intros [? ?].
Qed.

Lemma replay_window_room d r row :
  row ∈ replay_window d r → row ∈ room_messages d r.
Proof.
  unfold replay_window, recent_messages. rewrite elem_of_reverse.
  intros Hrow. pose proof (elem_of_sublist _ _ _ Hrow (sublist_take _ 50)) as Hin.
  by rewrite merge_sort_Permutation in Hin.
Qed.

Lemma room_messages_NoDup d r : NoDup (room_messages d r).*1.
Proof.
  unfold room_messages.
  apply (sublist_NoDup _ _ (NoDup_fst_map_to_list (messages d))).
  apply fmap_sublist, sublist_filter.
Qed.

Lemma replay_window_NoDup d r : NoDup (replay_window d r).*1.
Proof.
  unfold replay_window, recent_messages.
  rewrite reverse_Permutation.
  eapply sublist_NoDup; [|apply fmap_sublist, sublist_take].
  rewrite merge_sort_Permutation. apply room_messages_NoDup.
Qed.

Lemma replay_window_length d r :
  length (replay_window d r) = (length (room_messages d r) `min` 50)%nat.
Proof.
  unfold replay_window, recent_messages.
  rewrite length_reverse, length_take, merge_sort_Permutation. lia.
Qed.

Lemma replay_window_sorted d r : StronglySorted older_first (replay_window d r).
Proof.
  unfold replay_window, recent_messages.
  apply (StronglySorted_reverse newer_first), StronglySorted_take.
  apply StronglySorted_merge_sort; apply _.
Qed.

(** Whatever is left out is no newer than anything replayed. *)
Lemma replay_window_most_recent d r old new :
  old ∈ room_messages d r → old ∉ replay_window d r → new ∈ replay_window d r →
  older_first old new.
Proof.
  unfold replay_window, recent_messages. rewrite !elem_of_reverse.
  set (sorted := merge_sort newer_first (room_messages d r)).
  intros Hold Hout Hnew.
  assert (Hsorted : StronglySorted newer_first (take 50 sorted ++ drop 50 sorted)).
  { rewrite take_drop. apply StronglySorted_merge_sort; apply _. }
  assert (Hold' : old ∈ take 50 sorted ++ drop 50 sorted).
  { rewrite take_drop. subst sorted. by rewrite merge_sort_Permutation. }
  apply elem_of_app in Hold' as [Hin|Hdrop]; [done|].
  exact (StronglySorted_app_1_elem_of _ _ _ _ _ Hsorted Hnew Hdrop).
Qed.

(** A successful [connect]: registration and [accept], the replay loop,
    then the join and presence broadcasts. *)
Lemma connect_joins c w u r rm :
  scope_user c = Authenticated u →
  to_pk (JStr (scope_room_id c)) = Some r → rooms (db w) !! r = Some rm →
  user_id u ∈ members rm →
  let rid := scope_room_id c in
  let g := "chat_" +:+ rid in
  let ch := channel_name c in
  let c' := set_room_group_name g
              (set_self_room r (set_self_room_id rid (set_self_user (Authenticated u) c))) in
  let w0 := mkWorld (db w) (<[g := {[ch]} ∪ group_members w g]> (groups w))
              (trace w ++ [Log INFO (log_attempting (username u) rid);
                           GroupAdd g ch; Accept ch])
              (clock w) (ticks w) in
  ∃ w1,
    replayed c u (replay_window (db w) r) w0 w1
    ∧ connect (c, w) =
        (Ok tt,
         (c', mkWorld (db w1) (groups w1)
                (trace w1 ++
                   [GroupSend g (chat_message_ev None (JStr (username u +:+ " joined the chat"))
                                   (username u) "join" None (clock w1 (ticks w1)));
                    GroupSend g (user_status_ev (username u) "online"
                                   (clock w1 (S (ticks w1))));
                    Log INFO (log_connected (username u) rid)])
                (clock w1) (S (S (ticks w1))))).
Proof.
  intros Hu Hpk Hr Hmember rid g ch c' w0.
  unfold connect, ChatRoom_objects_get, members_exists, update_user_status.
  mrun. rewrite (bool_decide_eq_true_2 _ Hmember). mrun.
  match goal with
  | |- context [for_each ?rows (replay_message u) (?c1, ?w1)] =>
      destruct (replay_loop c1 u g rows w1 eq_refl eq_refl) as (w' & Hloop & Hpost);
        [|rewrite Hloop]
  end.
  { intros row Hrow. apply replay_window_room, room_messages_stored in Hrow as [Hrow _].
    cbn [db]. by rewrite Hrow. }
  mred. exists w'. split; [|subst c' rid g ch; mred; by rewrite Hu, <- !app_assoc].
  unfold replay_window. subst w0 g ch rid.
  by rewrite <- !app_assoc in Hpost.
Qed.

(** The number of rows the query finds is the number of stored messages
    of the room. *)
Lemma room_messages_count d r :
  length (room_messages d r)
  = size (filter (λ row : Z * Message, room row.2 = r) (messages d)).
Proof.
  rewrite <- length_map_to_list, map_filter_alt.
  rewrite map_to_list_to_map; [done|]. apply room_messages_NoDup.
Qed.

(** The guard of the replay loop. *)
Lemma needs_delivery_spec me row :
  needs_delivery me row ↔ user_id (sender row.2) ≠ user_id me ∧ status row.2 = "sent".
Proof.
  unfold needs_delivery. rewrite andb_True, negb_True.
  rewrite Is_true_true, Is_true_true, Z.eqb_eq, String.eqb_eq. done.
Qed.

(** C3. On a successful [connect] to a room holding N messages, [rows]
    below are the messages replayed: [min N 50] stored messages of that
    room, pairwise distinct, none older than a message of the room that
    is left out, in order of increasing timestamp.  [connect] accepts
    the connection and writes to the joining connection's own socket,
    and to no other, exactly one frame per row, in that order: a
    [chat.message] frame with the row's id, text, sender name, status
    and timestamp.  No message content is broadcast to the group.  For
    exactly the rows whose sender is another user and whose status is
    ['sent'] it saves ['delivered'], once each and in the same order;
    these rows end up ['delivered'] and the other rows of the window are
    left as they were. *)
Theorem connect_replays_recent_history (c : Consumer) (w : World)
    (u : User) (r : Z) (rm : ChatRoom) :
  scope_user c = Authenticated u →
  to_pk (JStr (scope_room_id c)) = Some r → rooms (db w) !! r = Some rm →
  user_id u ∈ members rm →
  let ch := channel_name c in
  let N := size (filter (λ row : Z * Message, room row.2 = r) (messages (db w))) in
  ∃ (rows : list (Z * Message)) c' w' acts,
    length rows = (N `min` 50)%nat
    ∧ NoDup rows.*1
    ∧ (∀ id m, (id, m) ∈ rows → messages (db w) !! id = Some m ∧ room m = r)
    ∧ (∀ id m id' m',
         (id, m) ∈ rows → messages (db w) !! id' = Some m' → room m' = r →
         (id', m') ∉ rows → timestamp m' ≤ timestamp m)
    ∧ StronglySorted (λ a b : Z * Message, timestamp a.2 ≤ timestamp b.2) rows
    ∧ connect (c, w) = (Ok tt, (c', w'))
    ∧ trace w' = trace w ++ acts
    ∧ accepts acts = [ch]
    ∧ sends acts =
        (λ row : Z * Message,
           (ch, chat_message_frame (Some (JInt row.1)) (JStr (content row.2))
                  (username (sender row.2)) "message" (Some (status row.2))
                  (timestamp row.2))) <$> rows
    ∧ message_broadcasts acts = []
    ∧ db_writes acts =
        (λ row : Z * Message, (row.1, "delivered"))
        <$> filter (λ row : Z * Message,
                      user_id (sender row.2) ≠ user_id u ∧ status row.2 = "sent") rows
    ∧ (∀ id m, (id, m) ∈ rows →
         messages (db w') !! id =
           Some (if decide (user_id (sender m) ≠ user_id u ∧ status m = "sent")
                 then set_status "delivered" m else m)).
Proof.
  intros Hu Hpk Hr Hmember ch N.
  destruct (connect_joins c w u r rm Hu Hpk Hr Hmember) as (w1 & Hpost & Hrun).
  destruct Hpost as (acts & Et & Es & Ed & Ea & Ec & Em & Eg & Ek & Eusers & Erooms & Ems).
  cbn [trace db] in Et, Ems.
  eexists (replay_window (db w) r), _, _, _.
  split; [by rewrite replay_window_length, room_messages_count|].
  split; [apply replay_window_NoDup|].
  split.
  { intros id m Hrow.
    by apply replay_window_room, room_messages_stored in Hrow. }
  split.
  { intros id m id' m' Hnew Hstored Hroom Hout.
    apply (replay_window_most_recent (db w) r (id', m') (id, m)); [|done..].
    by apply room_messages_stored. }
  split; [apply replay_window_sorted|].
  split; [exact Hrun|]. cbn [trace db messages].
  split; [rewrite Et, <- !app_assoc; reflexivity|].
  rewrite !accepts_app, !sends_app, !message_broadcasts_app, !db_writes_app.
  rewrite Ea, Es, Em, Ed. cbn [accepts sends message_broadcasts db_writes omap app].
  rewrite !app_nil_r.
  do 3 (split; [done|]).
  split.
  { change (db_writes [_; _; _]) with (@nil (Z * string)). rewrite app_nil_l.
    f_equal. apply list_filter_iff. intros row. apply needs_delivery_spec. }
  intros id m Hrow.
  pose proof Hrow as Hstored.
  apply replay_window_room, room_messages_stored in Hstored as [Hstored _].
  rewrite Ems.
  rewrite (foldl_mark_delivered_lookup u _ _ (id, m));
    [|apply replay_window_NoDup|done|done].
  cbn [fst snd]. f_equal.
  destruct (decide _) as [Hyes|Hno].
  - apply (needs_delivery_spec u (id, m)) in Hyes. by rewrite (Is_true_eq_true _ Hyes).
  - destruct (needs_delivery u (id, m)) eqn:Hneed; [|done].
    exfalso. apply Hno. apply (needs_delivery_spec u (id, m)). by rewrite Hneed.
Qed.

(** * Further properties of [ChatConsumer] *)

(** ** Relations kept by every step of a handler *)

Section Stable.
Context (P : St → St → Prop) {P_refl : Reflexive P} {P_trans : Transitive P}.

Set Default Proof Using "P P_refl P_trans".

Lemma stable_ret {A} (a : A) : stable P (mret a).
Proof. by intros s. Qed.

Lemma stable_raise {A} (e : exn) : stable P (@raise A e).
Proof. by intros s. Qed.

Lemma stable_get_self : stable P get_self.
Proof. by intros s. Qed.

Lemma stable_get_world : stable P get_world.
Proof. by intros s. Qed.

Lemma stable_bind {A B} (m : M A) (k : A → M B) :
  stable P m → (∀ a, stable P (k a)) → stable P (m ≫= k).
Proof.
  intros Hm Hk s. unfold mbind, M_bind, bind. specialize (Hm s).
  destruct (m s) as [[a|e] s1]; cbn [snd] in *; [|done].
  transitivity s1; [done|apply Hk].
Qed.

Lemma stable_try_catch {A} (m : M A) (h : exn → M A) :
  stable P m → (∀ e, stable P (h e)) → stable P (try_catch m h).
Proof.
  intros Hm Hh s. unfold try_catch. specialize (Hm s).
  destruct (m s) as [[a|e] s1]; cbn [snd] in *; [done|].
  transitivity s1; [done|apply Hh].
Qed.

Lemma stable_attr {A} name (field : Consumer → option A) : stable P (attr name field).
Proof.
  apply stable_bind; [apply stable_get_self|].
  intros c. destruct (field c); [apply stable_ret|apply stable_raise].
Qed.

Lemma stable_for_each {A} (l : list A) (body : A → M unit) :
  (∀ x, stable P (body x)) → stable P (for_each l body).
Proof.
  intros Hbody. induction l as [|x l IH]; cbn [for_each]; [apply stable_ret|].
  apply stable_bind; [apply Hbody|by intros _].
Qed.

Lemma stable_modify_world f :
  (∀ c w, P (c, w) (c, f w)) → stable P (modify_world f).
Proof. intros Hf [c w]. apply Hf. Qed.

Lemma stable_modify_self f :
  (∀ c w, P (c, w) (f c, w)) → stable P (modify_self f).
Proof. intros Hf [c w]. apply Hf. Qed.

End Stable.

Set Default Proof Using "Type".

(** Decompose a handler down to its state updates. *)
Ltac stable_step atoms :=
  first
    [ solve [atoms]
    | apply stable_ret; apply _ | apply stable_raise; apply _
    | apply stable_get_self; apply _ | apply stable_get_world; apply _
    | apply stable_attr; apply _
    | apply stable_for_each; [apply _|apply _|intros ?]
    | match goal with
      | |- stable _ (mbind _ _) => apply stable_bind; [apply _|apply _| |intros ?]
      | |- stable _ (try_catch _ _) =>
          apply stable_try_catch; [apply _|apply _| |intros ?]
      end
    | progress cbv zeta
    | match goal with
      | |- stable _ (match ?x with _ => _ end) => destruct x
      end ].

(** A handler whose exception handler returns normally returns normally. *)
Lemma try_catch_returns (m : M unit) (h : exn → M unit) :
  (∀ e s, ∃ s', h e s = (Ok tt, s')) → ∀ s, ∃ s', try_catch m h s = (Ok tt, s').
Proof.
  intros Hh s. unfold try_catch. destruct (m s) as [[[]|e] s1]; [by eexists|apply Hh].
Qed.

(** ** [receive] and the group-event handlers never disturb the session *)

#[export] Instance session_kept_refl : Reflexive session_kept.
Proof. intros s. repeat split. exists []. by rewrite app_nil_r. Qed.

#[export] Instance session_kept_trans : Transitive session_kept.
Proof.
  intros s1 s2 s3 (Hc1 & Hg1 & a1 & Ht1 & Ha1) (Hc2 & Hg2 & a2 & Ht2 & Ha2).
  split; [congruence|]. split; [congruence|]. exists (a1 ++ a2).
  rewrite Ht2, Ht1, app_assoc. split; [done|].
  apply Forall_app. split; [done|]. by rewrite <- Hc1.
Qed.

Lemma session_kept_emit a :
  (∀ ch, own_traffic ch a) → stable session_kept (emit a).
Proof.
  intros Ha [c w]. repeat split. exists [a]. split; [done|]. by repeat constructor.
Qed.

Lemma session_kept_send f : stable session_kept (send f).
Proof.
  intros [c w]. repeat split. exists [Send (channel_name c) f].
  split; [done|]. by repeat constructor.
Qed.

Lemma session_kept_quiet f :
  (∀ w, groups (f w) = groups w) → (∀ w, trace (f w) = trace w) →
  stable session_kept (modify_world f).
Proof.
  intros Hg Ht [c w]. split; [done|]. split; [apply Hg|].
  exists []. cbn. by rewrite Ht, app_nil_r.
Qed.

Ltac session_atoms :=
  idtac;
  first [ apply session_kept_send
        | apply session_kept_emit; by intros ?
        | apply session_kept_quiet; by intros ? ].
Ltac session_auto := repeat stable_step session_atoms.

Lemma session_kept_update_message_status v st :
  stable session_kept (update_message_status v st).
Proof.
  unfold update_message_status, Message_objects_get, Message_save, timezone_now,
    group_send, log.
  session_auto.
Qed.

Lemma session_kept_receive text_data : stable session_kept (receive text_data).
Proof.
  unfold receive, send_new_message, update_user_status, update_typing_status,
    Message_objects_create, timezone_now, group_send, log.
  session_auto; apply session_kept_update_message_status.
Qed.

Lemma session_kept_dispatch ev : stable session_kept (dispatch ev).
Proof.
  destruct ev; cbn [dispatch];
    unfold user_status, typing_status, message_status, chat_message, log;
    session_auto; apply session_kept_update_message_status.
Qed.

(** X1. Whatever text arrives and whatever state the session is in,
    [receive] returns normally, leaves the consumer object and every
    channel-layer group as they were, never accepts or closes the
    connection, and writes frames to the connection's own socket only. *)
Theorem receive_keeps_session (text_data : string) (s : St) :
  ∃ s', receive text_data s = (Ok tt, s') ∧ session_kept s s'.
Proof.
  pose proof (session_kept_receive text_data s) as Hkept. unfold receive in *.
  match goal with
  | |- ∃ s', try_catch ?m ?h s = _ ∧ _ =>
      destruct (try_catch_returns m h (λ e s0, ex_intro _ _ eq_refl) s) as (s' & Hrun)
  end.
  exists s'. split; [exact Hrun|]. by rewrite Hrun in Hkept.
Qed.

(** X2. The same holds for every event the room group delivers to a
    consumer: the handler returns normally, keeps the consumer object
    and the groups, never accepts or closes, and writes to the
    consumer's own socket only. *)
Theorem dispatch_keeps_session (ev : event) (s : St) :
  ∃ s', dispatch ev s = (Ok tt, s') ∧ session_kept s s'.
Proof.
  pose proof (session_kept_dispatch ev s) as Hkept.
  destruct ev; cbn [dispatch] in *;
    unfold user_status, typing_status, message_status, chat_message in *;
    match goal with
    | |- ∃ s', try_catch ?m ?h s = _ ∧ _ =>
        destruct (try_catch_returns m h (λ e s0, ex_intro _ _ eq_refl) s) as (s' & Hrun)
    end;
    exists s'; (split; [exact Hrun|]); by rewrite Hrun in Hkept.
Qed.

(** ** No handler rewrites or removes stored data *)

#[export] Instance same_but_status_refl : Reflexive same_but_status.
Proof. by intros m. Qed.

#[export] Instance same_but_status_trans : Transitive same_but_status.
Proof.
  intros m1 m2 m3 (? & ? & ? & ?) (? & ? & ? & ?). repeat split; congruence.
Qed.

#[export] Instance data_kept_refl : Reflexive data_kept.
Proof. intros s. repeat split. intros id m Hm. by exists m. Qed.

#[export] Instance data_kept_trans : Transitive data_kept.
Proof.
  intros s1 s2 s3 (Hu1 & Hr1 & Hm1) (Hu2 & Hr2 & Hm2).
  split; [congruence|]. split; [congruence|]. intros id m Hm.
  destruct (Hm1 id m Hm) as (m' & Hm' & Hsame1).
  destruct (Hm2 id m' Hm') as (m'' & Hm'' & Hsame2).
  exists m''. split; [done|]. by transitivity m'.
Qed.

Lemma data_kept_quiet f :
  (∀ w, db (f w) = db w) → stable data_kept (modify_world f).
Proof.
  intros Hf [c w]. unfold data_kept. cbn. rewrite Hf.
  repeat split. intros id m Hm. by exists m.
Qed.

Lemma data_kept_self f : stable data_kept (modify_self f).
Proof. intros [c w]. repeat split. intros id m Hm. by exists m. Qed.

(** A status update rewrites one row, and only its status. *)
Lemma data_kept_update_message_status v st :
  stable data_kept (update_message_status v st).
Proof.
  intros [c w].
  assert (Hsave : ∀ id m w', messages (db w) !! id = Some m →
            db w' = set_messages (<[id := set_status st m]> (messages (db w))) (db w) →
            data_kept (c, w) (c, w')).
  { intros id m w' Hm Hdb. unfold data_kept. cbn [fst snd]. rewrite Hdb.
    repeat split. intros id' m' Hm'. destruct (decide (id = id')) as [<-|Hne].
    - exists (set_status st m). cbn. rewrite lookup_insert_eq. split; [done|].
      rewrite Hm in Hm'. by injection Hm' as <-.
    - exists m'. cbn. by rewrite lookup_insert_ne. }
  assert (Hsame : ∀ w', db w' = db w → data_kept (c, w) (c, w')).
  { intros w' Hdb. unfold data_kept. cbn [fst snd]. rewrite Hdb.
    repeat split. intros id m Hm. by exists m. }
  unfold update_message_status, Message_objects_get, Message_save. mred.
  destruct (to_pk v) as [id|]; mred; [|by apply Hsame].
  destruct (messages (db w) !! id) as [m|] eqn:Hm; mred; [|by apply Hsame].
  destruct (room_group_name c); mred; [|by eapply Hsave].
  destruct (self_user c); mred; by eapply Hsave.
Qed.

(** A new row takes an unused key, so no stored row is overwritten. *)
Lemma data_kept_create v usr r st ts :
  stable data_kept (Message_objects_create v usr r st ts).
Proof.
  intros [c w]. unfold Message_objects_create.
  destruct (to_python v) as [text|]; [|reflexivity].
  destruct (accepts_text text); [|reflexivity]. unfold data_kept. mred.
  repeat split. intros id m' Hm'. exists m'. split; [|done].
  rewrite lookup_insert_ne; [done|].
  intros <-. by rewrite next_pk_fresh in Hm'.
Qed.

Ltac data_atoms :=
  idtac;
  first [ apply data_kept_update_message_status
        | apply data_kept_create
        | apply data_kept_self
        | apply data_kept_quiet; by intros ? ].
Ltac data_auto := repeat stable_step data_atoms.

Lemma data_kept_run_call k : stable data_kept (run_call k).
Proof.
  destruct k as [| close_code | text_data | ev]; cbn [run_call];
    [ unfold connect | unfold disconnect | unfold receive | destruct ev; cbn [dispatch] ];
    unfold replay_message, send_new_message, user_status, typing_status,
      message_status, chat_message, update_user_status, update_typing_status,
      ChatRoom_objects_get, members_exists, timezone_now, group_send, group_add,
      group_discard, send, accept, close, log, emit;
    data_auto.
Qed.

(** X3. Along any sequence of calls into a consumer the [users] and
    [rooms] tables never change, no message row is ever removed, and a
    stored row keeps its content, sender, room and timestamp: the only
    thing a handler ever changes in a stored row is its status. *)
Theorem handlers_keep_stored_data (ks : list call) (s : St) :
  data_kept s (run_calls ks s).
Proof.
  unfold run_calls. revert s. induction ks as [|k ks IH]; intros s; [reflexivity|].
  cbn [foldl]. transitivity (snd (run_call k s)); [apply data_kept_run_call|apply IH].
Qed.

(** ** The branches of [receive] *)

(** X4. Text that does not decode, or decodes to something that is not
    a JSON object, gets one error frame on the sender's own socket and
    one log line; nothing is broadcast or stored and the connection
    stays as it is. *)
Theorem receive_rejects_non_objects (text_data : string) (c : Consumer) (w : World) :
  (∀ d, json_loads text_data ≠ Some (JObj d)) →
  ∃ e, receive text_data (c, w) =
         (Ok tt, (c, emits w [Log ERROR (log_receive_error e);
                              Send (channel_name c) (error_frame e)]))
       ∧ (json_loads text_data = None → e = JSONDecodeError)
       ∧ (is_Some (json_loads text_data) → e = AttributeError "get").
Proof.
  intros Hshape. unfold receive.
  destruct (json_loads text_data) as [[| | | | |d]|] eqn:Hload;
    try (exists (AttributeError "get"); mred; rewrite <- app_assoc;
         by (split; [|split])).
  - by destruct (Hshape d).
  - exists JSONDecodeError. mred. rewrite <- app_assoc.
    split; [done|]. split; [done|]. by intros [? ?].
Qed.

(** X5. A ['typing'] frame on a connected session produces exactly one
    [typing_status] broadcast to the room group, carrying the frame's
    ['is_typing'] value as it came ([False] when absent), and changes
    nothing else. *)
Theorem receive_typing_broadcasts (text_data : string) (d : gmap string jval)
    (c : Consumer) (w : World) (g : string) (p : principal) :
  json_loads text_data = Some (JObj d) →
  d !! "type" = Some (JStr "typing") →
  room_group_name c = Some g → self_user c = Some p →
  receive text_data (c, w) =
    (Ok tt, (c, mkWorld (db w) (groups w)
                  (trace w ++ [GroupSend g (typing_status_ev (username_of p)
                                              (dict_get d "is_typing" (JBool false))
                                              (clock w (ticks w)))])
                  (clock w) (S (ticks w)))).
Proof.
  intros Hload Htype Hg Hp. unfold receive. unfold try_catch.
  rewrite Hload, (dict_get_Some _ _ _ _ Htype). cbn [jeq_str].
  change (String.eqb "typing" "status") with false.
  change (String.eqb "typing" "typing") with true. cbv beta iota zeta.
  by rewrite (update_typing_status_run _ _ _ _ _ Hg Hp).
Qed.

(** X6. A ['status'] frame whose status is ['online'], ['offline'] or
    ['away'] produces exactly one [user_status] broadcast with that
    status and changes nothing else. *)
Theorem receive_status_broadcasts (text_data : string) (d : gmap string jval)
    (st : string) (c : Consumer) (w : World) (g : string) (p : principal) :
  json_loads text_data = Some (JObj d) →
  d !! "type" = Some (JStr "status") →
  d !! "status" = Some (JStr st) → st ∈ ["online"; "offline"; "away"] →
  room_group_name c = Some g → self_user c = Some p →
  receive text_data (c, w) =
    (Ok tt, (c, mkWorld (db w) (groups w)
                  (trace w ++ [GroupSend g (user_status_ev (username_of p) st
                                              (clock w (ticks w)))])
                  (clock w) (S (ticks w)))).
Proof.
  intros Hload Htype Hst Hin Hg Hp. unfold receive. unfold try_catch.
  rewrite Hload, (dict_get_Some _ _ _ _ Htype), (dict_get_Some _ _ _ _ Hst).
  cbn [jeq_str presence_choice].
  change (String.eqb "status" "status") with true. cbv beta iota zeta.
  rewrite (bool_decide_eq_true_2 _ Hin).
  by rewrite (update_user_status_run _ _ _ _ _ Hg Hp).
Qed.

(** X7. A read receipt that names no message (the id is absent, null,
    zero, empty or false) is ignored: nothing is looked up, saved,
    broadcast, logged or sent. *)
Theorem receive_read_receipt_without_id (text_data : string) (d : gmap string jval)
    (c : Consumer) (w : World) :
  json_loads text_data = Some (JObj d) →
  d !! "type" = Some (JStr "read_receipt") →
  d !! "message_id" ∈ [None; Some JNull; Some (JInt 0); Some (JStr ""); Some (JBool false)] →
  receive text_data (c, w) = (Ok tt, (c, w)).
Proof.
  intros Hload Htype Hid. unfold receive. unfold try_catch.
  rewrite Hload, (dict_get_Some _ _ _ _ Htype). cbn [jeq_str].
  change (String.eqb "read_receipt" "status") with false.
  change (String.eqb "read_receipt" "typing") with false.
  change (String.eqb "read_receipt" "read_receipt") with true.
  cbv beta iota zeta. unfold dict_get.
  rewrite !elem_of_cons in Hid.
  destruct Hid as [->|[->|[->|[->|[->|Hid]]]]]; try reflexivity.
  by apply elem_of_nil in Hid.
Qed.

(** X8. A read receipt for a stored message sets its status to ['seen']
    and broadcasts one [message_status] event to the reader's room
    group, whatever the status was, whoever sent the message and
    whichever room the message belongs to: the reader, the sender and
    the room are not compared. *)
Theorem read_receipt_marks_seen (text_data : string) (d : gmap string jval)
    (v : jval) (id : Z) (m : Message) (c : Consumer) (w : World)
    (g : string) (p : principal) :
  json_loads text_data = Some (JObj d) →
  d !! "type" = Some (JStr "read_receipt") →
  d !! "message_id" = Some v → truthy v = true →
  to_pk v = Some id → messages (db w) !! id = Some m →
  room_group_name c = Some g → self_user c = Some p →
  receive text_data (c, w) =
    (Ok tt, (c, mkWorld (set_messages (<[id := set_status "seen" m]> (messages (db w))) (db w))
                  (groups w)
                  (trace w ++ [DbSave id "seen";
                               GroupSend g (message_status_ev v "seen" (username_of p)
                                              (clock w (ticks w)));
                               Log INFO (log_status_updated v "seen" (username_of p))])
                  (clock w) (S (ticks w)))).
Proof.
  intros Hload Htype Hid Htruthy Hpk Hm Hg Hp.
  rewrite (receive_read_receipt _ _ _ _ _ Hload Htype Hid Htruthy). unfold try_catch.
  by rewrite (update_message_status_found _ _ _ _ _ _ _ _ Hpk Hm Hg Hp).
Qed.

(** X9. When the insert of a new message fails (its content is null,
    or the storage refuses its text), the sender gets one error frame;
    no row is created and no [chat_message] is broadcast, but the
    typing-false broadcast that precedes the insert has already gone
    out. *)
Theorem rejected_content_is_reported (text_data : string) (d : gmap string jval)
    (c : Consumer) (w : World) (u : User) (rid : string) (r : Z) (g : string) :
  active c u rid r g →
  json_loads text_data = Some (JObj d) →
  d !! "type" ∉ [Some (JStr "status"); Some (JStr "typing"); Some (JStr "read_receipt")] →
  storable (dict_get d "message" (JStr "")) = false →
  receive text_data (c, w) =
    (Ok tt,
     (c, mkWorld (db w) (groups w)
           (trace w ++
              [Log INFO (log_received (username u) rid (dict_get d "message" (JStr "")));
               GroupSend g (typing_status_ev (username u) (JBool false) (clock w (ticks w)));
               Log ERROR (log_receive_error IntegrityError);
               Send (channel_name c) (error_frame IntegrityError)])
           (clock w) (S (S (ticks w))))).
Proof.
  intros [Hu Hrid Hr Hg] Hload Htype Hstorable.
  rewrite (receive_falls_through _ _ _ _ Hload Htype).
  unfold send_new_message, update_typing_status, Message_objects_create.
  unfold storable in Hstorable.
  destruct (to_python (dict_get d "message" (JStr ""))) as [text|] eqn:Hpy;
    mrun; cbn [username_of]; by rewrite <- !app_assoc.
Qed.

(** ** [chat_message] events arriving from the group *)

(** X10. A new message from another user, arriving at a connected
    consumer with status ['sent'], is written to the consumer's socket
    and then marked ['delivered']: the row is saved with that status and
    a [message_status] event is broadcast to the room group. *)
Theorem chat_message_marks_delivered (mid msg : jval) (user : string) (ts : Z)
    (id : Z) (m : Message) (c : Consumer) (w : World) (g : string) (p : principal) :
  room_group_name c = Some g → self_user c = Some p →
  user ≠ username_of p →
  to_pk mid = Some id → messages (db w) !! id = Some m →
  dispatch (chat_message_ev (Some mid) msg user "message" (Some "sent") ts) (c, w) =
    (Ok tt,
     (c, mkWorld
           (set_messages (<[id := set_status "delivered" m]> (messages (db w))) (db w))
           (groups w)
           (trace w ++
              [Send (channel_name c)
                 (chat_message_frame (Some mid) msg user "message" (Some "sent") ts);
               DbSave id "delivered";
               GroupSend g (message_status_ev mid "delivered" (username_of p)
                              (clock w (ticks w)));
               Log INFO (log_status_updated mid "delivered" (username_of p))])
           (clock w) (S (ticks w)))).
Proof.
  intros Hg Hp Hother Hpk Hm. cbn [dispatch]. unfold chat_message. mred.
  change (String.eqb "message" "message") with true. mrun.
  rewrite (proj2 (String.eqb_neq _ _) Hother).
  rewrite bool_decide_eq_true_2 by done. cbn [negb andb].
  match goal with
  | |- context [update_message_status ?v0 ?st0 (c, ?w0)] =>
      rewrite (update_message_status_found c w0 v0 st0 id m g p Hpk Hm Hg Hp)
  end.
  mred. by rewrite <- !app_assoc.
Qed.

(** X11. Any other [chat_message] event (a join or leave notice, the
    consumer's own message, a message whose status is not ['sent']) is
    only written to the socket: nothing is saved or broadcast. *)
Theorem chat_message_only_forwards (mid : option jval) (msg : jval)
    (user mt : string) (st : option string) (ts : Z)
    (c : Consumer) (w : World) (p : principal) :
  self_user c = Some p →
  mt ≠ "message" ∨ user = username_of p ∨ st ≠ Some "sent" →
  dispatch (chat_message_ev mid msg user mt st ts) (c, w) =
    (Ok tt, (c, emits w [Send (channel_name c)
                           (chat_message_frame mid msg user mt st ts)])).
Proof.
  intros Hp Hcase. cbn [dispatch]. unfold chat_message. mred.
  destruct (String.eqb_spec mt "message") as [->|Hmt]; [|by mred].
  mrun. destruct Hcase as [Hcase|[->|Hst]]; [done| |].
  - rewrite String.eqb_refl. by mred.
  - rewrite (bool_decide_eq_false_2 _ Hst), andb_false_r. by mred.
Qed.

(** ** [connect] and [disconnect] together *)

(** X12. A successful [connect] leaves the consumer with its user, room
    id, room and group name set, and its channel registered in the
    group [chat_<room id>], whose other members stay.  The order of its
    actions is: registration, [accept], the replay (which neither
    accepts nor closes), then the join notice and the ['online']
    presence, both broadcast to the group. *)
Theorem connect_registers_session (c : Consumer) (w : World)
    (u : User) (r : Z) (rm : ChatRoom) :
  scope_user c = Authenticated u →
  to_pk (JStr (scope_room_id c)) = Some r → rooms (db w) !! r = Some rm →
  user_id u ∈ members rm →
  let rid := scope_room_id c in
  let g := "chat_" +:+ rid in
  let ch := channel_name c in
  ∃ c' w' acts n,
    connect (c, w) = (Ok tt, (c', w'))
    ∧ active c' u rid r g ∧ channel_name c' = ch
    ∧ groups w' = <[g := {[ch]} ∪ group_members w g]> (groups w)
    ∧ ch ∈ group_members w' g
    ∧ trace w' = trace w
        ++ [Log INFO (log_attempting (username u) rid); GroupAdd g ch; Accept ch]
        ++ acts
        ++ [GroupSend g (chat_message_ev None (JStr (username u +:+ " joined the chat"))
                           (username u) "join" None (clock w n));
            GroupSend g (user_status_ev (username u) "online" (clock w (S n)));
            Log INFO (log_connected (username u) rid)]
    ∧ accepts acts = [] ∧ close_codes acts = [].
Proof.
  intros Hu Hpk Hr Hmember rid g ch.
  destruct (connect_joins c w u r rm Hu Hpk Hr Hmember) as (w1 & Hpost & Hrun).
  destruct Hpost as (acts & Et & _ & _ & Ea & Ec & _ & Eg & Ek & _).
  cbn [trace groups clock] in Et, Eg, Ek.
  eexists _, _, acts, (ticks w1). split; [exact Hrun|].
  split; [by split|]. split; [done|]. cbn [groups trace].
  split; [exact Eg|]. split.
  - unfold group_members at 1. cbn [groups]. rewrite Eg, lookup_insert_eq. cbn.
    apply elem_of_union. left. by apply elem_of_singleton.
  - rewrite Et, Ek, <- !app_assoc. by repeat split.
Qed.

(** X13. [connect] followed by [disconnect] takes the channel out of
    the room group again and leaves every other channel's membership,
    in every group, as it was before the connection. *)
Theorem connect_then_disconnect_unregisters (c : Consumer) (w : World)
    (u : User) (r : Z) (rm : ChatRoom) (close_code : Z) :
  scope_user c = Authenticated u →
  to_pk (JStr (scope_room_id c)) = Some r → rooms (db w) !! r = Some rm →
  user_id u ∈ members rm →
  let w2 := snd (run_calls [Connect; Disconnect close_code] (c, w)) in
  (∀ g', channel_name c ∉ group_members w2 g' ∨ channel_name c ∈ group_members w g')
  ∧ (channel_name c ∉ group_members w2 ("chat_" +:+ scope_room_id c))
  ∧ ∀ g' ch', ch' ≠ channel_name c →
      (ch' ∈ group_members w2 g' ↔ ch' ∈ group_members w g').
Proof.
  intros Hu Hpk Hr Hmember.
  destruct (connect_joins c w u r rm Hu Hpk Hr Hmember) as (w1 & Hpost & Hrun).
  destruct Hpost as (acts & _ & _ & _ & _ & _ & _ & Eg & _).
  cbn [groups] in Eg.
  cbn [run_calls foldl run_call]. rewrite Hrun. cbn [snd].
  erewrite disconnect_run; [|reflexivity..]. cbn [snd].
  set (g := "chat_" +:+ scope_room_id c). set (ch := channel_name c).
  assert (Hlook : ∀ g' ch',
            ch' ∈ default ∅ (alter (λ s, s ∖ {[ch]}) g
                               (<[g := {[ch]} ∪ group_members w g]> (groups w)) !! g')
            ↔ ch' ∈ group_members w g' ∧ (g' = g → ch' ≠ ch)).
  { intros g' ch'. destruct (decide (g' = g)) as [->|Hne].
    - rewrite lookup_alter_eq, lookup_insert_eq. cbn.
      rewrite elem_of_difference, elem_of_union, !elem_of_singleton.
      split; [intros [[->|Hin] Hch]; [done|by split]|].
      intros [Hin Hch]. split; [by right|by apply Hch].
    - rewrite lookup_alter_ne, lookup_insert_ne by done. unfold group_members.
      split; [by intros ?|by intros [? _]]. }
  unfold group_members at 1 3 4. cbn [groups set_room_group_name channel_name
    set_self_room set_self_room_id set_self_user]. rewrite Eg. fold ch g.
  split; [|split].
  - intros g'. destruct (decide (ch ∈ group_members w g')) as [Hin|Hout]; [by right|].
    left. rewrite Hlook. by intros [? _].
  - rewrite Hlook. intros [_ Hne]. by apply Hne.
  - intros g' ch' Hne. rewrite Hlook. split; [by intros [? _]|by intros ?].
Qed.

(** X14. A connection that [connect] rejected is torn down silently:
    the [disconnect] that follows broadcasts nothing, logs nothing and
    changes nothing. *)
Theorem rejected_connection_tears_down_silently (c : Consumer) (w : World)
    (code close_code : Z) :
  room_group_name c = None →
  rejected c w code →
  disconnect close_code (snd (connect (c, w))) = (Ok tt, snd (connect (c, w))).
Proof.
  intros Hfresh (c' & acts & Hrun & _ & _ & _ & Hg). rewrite Hrun. cbn [snd].
  apply disconnect_not_joined. by rewrite Hg.
Qed.

(** X15. When the room id of the URL cannot be used as a key, the
    lookup error is not the ``no such room'' case: it reaches the outer
    handler, and the connection is closed with code 4000 before it is
    accepted. *)
Theorem connect_bad_room_id (c : Consumer) (w : World) (u : User) :
  scope_user c = Authenticated u →
  to_pk (JStr (scope_room_id c)) = None →
  connect (c, w) =
    (Ok tt, (set_self_room_id (scope_room_id c) (set_self_user (Authenticated u) c),
             emits w [Log ERROR (log_connect_error ValueError);
                      Close (channel_name c) 4000]))
  ∧ rejected c w 4000.
Proof.
  intros Hu Hpk.
  assert (Hrun : connect (c, w) =
    (Ok tt, (set_self_room_id (scope_room_id c) (set_self_user (Authenticated u) c),
             emits w [Log ERROR (log_connect_error ValueError);
                      Close (channel_name c) 4000]))).
  { unfold connect, ChatRoom_objects_get. mrun. by rewrite <- !app_assoc. }
  split; [exact Hrun|]. eexists _, _. by rewrite Hrun.
Qed.



(** * Authentication of the connection scope *)

(** Settle an equivalence between an outcome that is known and the
    description of the tokens that lead to it. *)
Ltac outcomes :=
  repeat split; intros;
  repeat match goal with
         | H : ∃ _, _ |- _ => destruct H
         | H : _ ∧ _ |- _ => destruct H
         | H : _ ∨ _ |- _ => destruct H
         end;
  simplify_eq; try done;
  eauto 20.

(** X17. [get_user_from_token] has three outcomes.  It returns a
    stored user exactly for a non-empty token that validates and whose
    ['user_id'] claim is the key of a stored user, and then it is that
    user.  It raises exactly for a non-empty token that validates but
    carries no ['user_id'] claim ([KeyError]) or carries one that cannot
    be used as a key ([ValueError]): the [except] clause catches neither.
    It returns [AnonymousUser] exactly in the remaining cases: no token
    or an empty one, a token that does not validate, a null ['user_id'],
    or a key that no stored user has. *)
Theorem get_user_from_token_authenticates (token_key : option string) (d : Db) :
  (∀ u, get_user_from_token token_key d = Ok (Authenticated u)
        ↔ ∃ t access_token v uid,
            token_key = Some t ∧ t ≠ "" ∧ decode_token t = Some access_token
            ∧ access_token !! "user_id" = Some v ∧ v ≠ JNull
            ∧ to_pk v = Some uid ∧ users d !! uid = Some u)
  ∧ (∀ e, get_user_from_token token_key d = Raise e
        ↔ ∃ t access_token,
            token_key = Some t ∧ t ≠ "" ∧ decode_token t = Some access_token
            ∧ ((access_token !! "user_id" = None ∧ e = KeyError "user_id")
               ∨ ∃ v, access_token !! "user_id" = Some v ∧ v ≠ JNull
                      ∧ to_pk v = None ∧ e = ValueError))
  ∧ (get_user_from_token token_key d = Ok AnonymousUser
        ↔ token_key = None ∨ token_key = Some ""
          ∨ ∃ t, token_key = Some t
                 ∧ (decode_token t = None
                    ∨ ∃ access_token v,
                        decode_token t = Some access_token
                        ∧ access_token !! "user_id" = Some v
                        ∧ (v = JNull
                           ∨ ∃ uid, to_pk v = Some uid ∧ users d !! uid = None))).
Proof.
  unfold get_user_from_token.
  destruct token_key as [t|]; [|outcomes].
  destruct (String.eqb_spec t "") as [->|Hne]; [outcomes|].
  destruct (decode_token t) as [access_token|] eqn:Hdec; [|outcomes].
  destruct (access_token !! "user_id") as [v|] eqn:Hclaim; [|outcomes].
  assert (Hv : v = JNull ∨ v ≠ JNull) by (destruct v; (by left) || (by right)).
  destruct Hv as [->|Hv]; [outcomes|].
  assert (Hrun : match v with
                 | JNull => Ok AnonymousUser
                 | _ => match to_pk v with
                        | None => Raise ValueError
                        | Some uid => match users d !! uid with
                                      | Some u => Ok (Authenticated u)
                                      | None => Ok AnonymousUser
                                      end
                        end
                 end
                 = match to_pk v with
                   | None => Raise ValueError
                   | Some uid => match users d !! uid with
                                 | Some u => Ok (Authenticated u)
                                 | None => Ok AnonymousUser
                                 end
                   end) by (by destruct v).
  rewrite Hrun. clear Hrun.
  destruct (to_pk v) as [uid|] eqn:Hpk; [|outcomes].
  destruct (users d !! uid) as [u'|] eqn:Hu; outcomes.
Qed.

Lemma append_cons a s rest : String a s +:+ rest = String a (s +:+ rest).
Proof. reflexivity. Qed.

Lemma append_empty_r s : s +:+ "" = s.
Proof. induction s as [|a s IH]; [done|]. by rewrite append_cons, IH. Qed.

Lemma split_on_cons sep a s :
  split_on sep (String a s) =
    if Ascii.eqb a sep
    then ("", fst (split_on sep s) :: snd (split_on sep s))
    else (String a (fst (split_on sep s)), snd (split_on sep s)).
Proof. cbn [split_on]. by destruct (split_on sep s). Qed.

Lemma split_on_no_sep sep s rest :
  has_char sep s = false →
  split_on sep (s +:+ rest) =
    (s +:+ fst (split_on sep rest), snd (split_on sep rest)).
Proof.
  induction s as [|a s IH]; cbn [has_char]; intros Hs.
  - change ("" +:+ rest) with rest.
    change ("" +:+ fst (split_on sep rest)) with (fst (split_on sep rest)).
    by destruct (split_on sep rest).
  - apply orb_false_iff in Hs as [Ha Hs].
    rewrite !append_cons, split_on_cons, (IH Hs), Ha. done.
Qed.

(** The piece after the first space of a string that starts with a
    space-free word [word] followed by a space. *)
Lemma str_split_second word t rest :
  has_char " " word = false → has_char " " t = false →
  rest = "" ∨ (∃ rest', rest = String " " rest') →
  str_split " " (word +:+ String " " (t +:+ rest)) !! 1%nat = Some t.
Proof.
  intros Hword Ht Hrest. unfold str_split.
  rewrite (split_on_no_sep " " word _ Hword), split_on_cons.
  change (Ascii.eqb " " " ") with true. cbn [fst snd].
  rewrite (split_on_no_sep " " t rest Ht). cbn [fst snd lookup list_lookup].
  destruct Hrest as [->|(rest' & ->)].
  - cbn [split_on fst]. by rewrite append_empty_r.
  - rewrite split_on_cons. change (Ascii.eqb " " " ") with true. cbn [fst].
    by rewrite append_empty_r.
Qed.

(** X18. A non-empty ['token'] in the query string decides the identity
    alone: the headers are not looked at. *)
Theorem query_token_takes_precedence (sc : Scope) (d : Db) (t : string)
    (more : list string) :
  parse_qs (query_string sc) !! "token" = Some (t, more) → t ≠ "" →
  token_key_of sc = Some t
  ∧ JWTAuthMiddleware_call sc d = get_user_from_token (Some t) d.
Proof.
  intros Hq Ht. unfold JWTAuthMiddleware_call, token_key_of. rewrite Hq.
  cbv zeta. by rewrite (proj2 (String.eqb_neq _ _) Ht).
Qed.

(** X19. Without a query token, an ['authorization'] header of the form
    ['Bearer <t>'], where [<t>] holds no space and is followed by
    nothing or by a space, authenticates with [<t>]. *)
Theorem bearer_header_is_used (sc : Scope) (d : Db) (hs : list (string * string))
    (t rest : string) :
  parse_qs (query_string sc) !! "token" = None →
  headers sc = Some hs →
  py_dict hs !! "authorization" = Some ("Bearer " +:+ t +:+ rest) →
  has_char " " t = false →
  rest = "" ∨ (∃ rest', rest = String " " rest') →
  token_key_of sc = Some t
  ∧ JWTAuthMiddleware_call sc d = get_user_from_token (Some t) d.
Proof.
  intros Hq Hh Hauth Ht Hrest.
  assert (Hkey : token_key_of sc = Some t).
  { unfold token_key_of. rewrite Hq, Hh, Hauth. cbv zeta iota.
    change (startswith "Bearer " ("Bearer " +:+ t +:+ rest)) with true.
    cbv iota.
    change ("Bearer " +:+ t +:+ rest) with ("Bearer" +:+ String " " (t +:+ rest)).
    by apply str_split_second. }
  split; [exact Hkey|]. unfold JWTAuthMiddleware_call. by rewrite Hkey.
Qed.

(** X20. Without a query token, a connection with no headers, with no
    ['authorization'] header, or with one that does not start with
    ['Bearer '] (the comparison is case-sensitive) is anonymous. *)
Theorem other_schemes_are_anonymous (sc : Scope) (d : Db) :
  parse_qs (query_string sc) !! "token" = None →
  (headers sc = None
   ∨ ∃ hs, headers sc = Some hs
           ∧ (py_dict hs !! "authorization" = None
              ∨ ∃ h, py_dict hs !! "authorization" = Some h
                     ∧ startswith "Bearer " h = false)) →
  token_key_of sc = None ∧ JWTAuthMiddleware_call sc d = Ok AnonymousUser.
Proof.
  intros Hq Hh.
  assert (Hkey : token_key_of sc = None).
  { unfold token_key_of. rewrite Hq. cbv zeta iota.
    destruct Hh as [->|(hs & -> & [->|(h & -> & ->)])]; reflexivity. }
  split; [exact Hkey|]. unfold JWTAuthMiddleware_call. by rewrite Hkey.
Qed.

Lemma py_dict_fold_other (more : list (string * string)) (m : gmap string string) k :
  k ∉ more.*1 → foldl (λ m kv, <[kv.1 := kv.2]> m) m more !! k = m !! k.
Proof.
  revert m. induction more as [|[k' v'] more IH]; intros m Hk; [done|].
  rewrite fmap_cons, not_elem_of_cons in Hk. destruct Hk as [Hne Hk].
  cbn [foldl fst snd]. rewrite IH by done. by rewrite lookup_insert_ne.
Qed.

(** [dict(pairs)] keeps, for a key, the value of its last pair. *)
Lemma py_dict_last (hs more : list (string * string)) (k v : string) :
  k ∉ more.*1 → py_dict (hs ++ (k, v) :: more) !! k = Some v.
Proof.
  intros Hk. unfold py_dict. rewrite foldl_app. cbn [foldl fst snd].
  rewrite py_dict_fold_other by done. apply lookup_insert_eq.
Qed.

(** X21. When the ['authorization'] header occurs more than once, the
    last occurrence decides: a bearer token in it is the one used,
    whatever the earlier occurrences hold. *)
Theorem later_authorization_header_wins (sc : Scope) (d : Db)
    (hs more : list (string * string)) (t : string) :
  parse_qs (query_string sc) !! "token" = None →
  headers sc = Some (hs ++ ("authorization", "Bearer " +:+ t) :: more) →
  "authorization" ∉ more.*1 →
  has_char " " t = false →
  token_key_of sc = Some t
  ∧ JWTAuthMiddleware_call sc d = get_user_from_token (Some t) d.
Proof.
  intros Hq Hh Hmore Ht.
  assert (Hkey : token_key_of sc = Some t).
  { unfold token_key_of. rewrite Hq, Hh, (py_dict_last hs more _ _ Hmore).
    cbv zeta iota.
    change (startswith "Bearer " ("Bearer " +:+ t)) with true. cbv iota.
    pose proof (str_split_second "Bearer" t "" eq_refl Ht (or_introl eq_refl)) as Hs.
    by rewrite append_empty_r in Hs. }
  split; [exact Hkey|]. unfold JWTAuthMiddleware_call. by rewrite Hkey.
Qed.

End Consumer.

(** * Worked runs on the concrete deployment *)

(** Close a goal [x ∉ [a; b; ...]] between distinct constructor terms. *)
Ltac not_among :=
  rewrite ?not_elem_of_cons; repeat split; try discriminate; try apply not_elem_of_nil.

(** Close a decidable goal about concrete sets by evaluation. *)
Ltac by_evaluation := apply (bool_decide_unpack _); vm_compute; exact I.

Lemma demo_bob_active : active Demo.bob_conn Demo.bob "7" 7 "chat_7".
Proof. by split. Defined.

(** ** C10: a ['busy'] status frame is dropped *)

Lemma receive_unknown_status_dropped_witness :
  Demo.loads Demo.status_busy
    = Some (JObj (<["type" := JStr "status"]> (<["status" := JStr "busy"]> ∅)))
  ∧ receive Demo.coerce Demo.any_text Demo.repr Demo.loads Demo.status_busy
      (Demo.bob_conn, Demo.joined) = (Ok tt, (Demo.bob_conn, Demo.joined)).
Proof.
  split; [vm_compute; reflexivity|].
  apply (receive_unknown_status_dropped Demo.coerce Demo.any_text Demo.repr Demo.loads
           Demo.status_busy (<["type" := JStr "status"]> (<["status" := JStr "busy"]> ∅))).
  - vm_compute; reflexivity.
  - vm_compute; reflexivity.
  - change (dict_get _ "status" JNull) with (JStr "busy"). not_among.
Defined.

(** ** C6: a read receipt for a message that does not exist *)

Lemma failed_transition_only_logged_witness :
  ∃ line,
    update_message_status Demo.coerce (JInt 99) "seen" (Demo.bob_conn, Demo.joined)
      = (Ok tt, (Demo.bob_conn, emits Demo.joined [Log ERROR line]))
    ∧ ¬ caller_observes_failure (Ok tt) (channel_name Demo.bob_conn) [Log ERROR line].
Proof.
  apply (failed_transition_only_logged Demo.coerce (JInt 99) "seen").
  right. exists 99. split; vm_compute; reflexivity.
Defined.

(** The initiator of this request gets neither an exception nor an error
    frame: the failure is visible in the log only. *)
Lemma missing_message_failure_not_observed :
  let run := receive Demo.coerce Demo.any_text Demo.repr Demo.loads Demo.read_receipt_99
               (Demo.bob_conn, Demo.joined) in
  messages (db Demo.joined) !! 99 = None
  ∧ fst run = Ok tt
  ∧ trace (snd (snd run)) = [Log ERROR (log_message_not_found (JInt 99))]
  ∧ ¬ caller_observes_failure (fst run) (channel_name Demo.bob_conn) (trace (snd (snd run))).
Proof.
  cbv zeta.
  assert (Hrun : receive Demo.coerce Demo.any_text Demo.repr Demo.loads Demo.read_receipt_99
                   (Demo.bob_conn, Demo.joined)
                 = (Ok tt, (Demo.bob_conn,
                            emits Demo.joined [Log ERROR (log_message_not_found (JInt 99))])))
    by (vm_compute; reflexivity).
  rewrite Hrun. cbn [fst snd emits trace Demo.joined app].
  split; [vm_compute; reflexivity|]. split; [reflexivity|]. split; [reflexivity|].
  intros [[e He]|[e He]]; [discriminate|].
  cbn in He. by apply elem_of_nil in He.
Qed.

(** ** C7: the three rejections *)

Lemma connect_rejections_witness :
  rejected Demo.coerce (Demo.fresh "chan.anon" AnonymousUser "7") Demo.world 4001
  ∧ rejected Demo.coerce (Demo.fresh "chan.bob" (Authenticated Demo.bob) "8") Demo.world 4004
  ∧ rejected Demo.coerce (Demo.fresh "chan.carol" (Authenticated Demo.carol) "7")
      Demo.world 4002.
Proof.
  split; [|split].
  - apply (proj1 (connect_rejections Demo.coerce Demo.token
                    (Demo.fresh "chan.anon" AnonymousUser "7") Demo.world))
      with (token_key := Some "forged").
    + right. exists "forged". split; [reflexivity|]. right. left. vm_compute; reflexivity.
    + vm_compute; reflexivity.
  - apply (proj1 (proj2 (connect_rejections Demo.coerce Demo.token
                           (Demo.fresh "chan.bob" (Authenticated Demo.bob) "8") Demo.world)))
      with (u := Demo.bob) (r := 8); vm_compute; reflexivity.
  - apply (proj1 (proj2 (proj2 (connect_rejections Demo.coerce Demo.token
                           (Demo.fresh "chan.carol" (Authenticated Demo.carol) "7")
                           Demo.world))))
      with (u := Demo.carol) (r := 7) (rm := mkChatRoom {[1; 2]}).
    + reflexivity.
    + vm_compute; reflexivity.
    + vm_compute; reflexivity.
    + by_evaluation.
Defined.

(** ** C5: tearing bob's connection down twice *)

Lemma disconnect_ordered_and_repeated_witness :
  let s1 := (disconnect 1000 (Demo.bob_conn, Demo.joined)).2 in
  let s2 := (disconnect 1006 s1).2 in
  trace (snd s1) = teardown "chat_7" "chan.bob" "bob" "7" 1000 (clock Demo.joined) 0
  ∧ trace (snd s2) = teardown "chat_7" "chan.bob" "bob" "7" 1000 (clock Demo.joined) 0
                      ++ teardown "chat_7" "chan.bob" "bob" "7" 1006 (clock Demo.joined) 3.
Proof.
  destruct (disconnect_ordered_and_repeated Demo.bob_conn Demo.joined 1000 1006
              "chat_7" "7" (Authenticated Demo.bob) eq_refl eq_refl eq_refl)
    as (_ & H1 & _ & H2 & _).
  split; [exact H1|exact H2].
Defined.

(** Two invocations give two leave broadcasts and two deregistrations,
    not one of each. *)
Lemma teardown_twice_leaves_twice :
  let t := trace (snd (run_calls Demo.coerce Demo.any_text Demo.repr Demo.loads
                         [Disconnect 1000; Disconnect 1006] (Demo.bob_conn, Demo.joined))) in
  leave_broadcasts t = ["bob"; "bob"]
  ∧ discards t = [("chat_7", "chan.bob"); ("chat_7", "chan.bob")]
  ∧ ¬ (length (leave_broadcasts t) = 1%nat ∧ length (discards t) = 1%nat).
Proof.
  cbv zeta.
  assert (Hl : leave_broadcasts
                 (trace (snd (run_calls Demo.coerce Demo.any_text Demo.repr Demo.loads
                                [Disconnect 1000; Disconnect 1006]
                                (Demo.bob_conn, Demo.joined)))) = ["bob"; "bob"])
    by (vm_compute; reflexivity).
  rewrite Hl. split; [reflexivity|]. split; [vm_compute; reflexivity|].
  intros [Hlen _]. discriminate Hlen.
Qed.

(** ** C4: two read receipts for message 3, which is already ['seen'] *)

Lemma seen_again_repeats_write_and_broadcast_witness :
  status <$> messages (db Demo.joined) !! 3 = Some "seen"
  ∧ run_calls Demo.coerce Demo.any_text Demo.repr Demo.loads
      [Receive Demo.read_receipt_3; Receive Demo.read_receipt_3]
      (Demo.bob_conn, Demo.joined)
    = (Demo.bob_conn,
       mkWorld (db Demo.joined) (groups Demo.joined)
         [DbSave 3 "seen";
          GroupSend "chat_7" (message_status_ev (JInt 3) "seen" "bob" 100);
          Log INFO (log_status_updated (JInt 3) "seen" "bob");
          DbSave 3 "seen";
          GroupSend "chat_7" (message_status_ev (JInt 3) "seen" "bob" 101);
          Log INFO (log_status_updated (JInt 3) "seen" "bob")]
         (clock Demo.joined) 2).
Proof.
  split; [vm_compute; reflexivity|].
  apply (seen_again_repeats_write_and_broadcast Demo.coerce Demo.any_text Demo.repr Demo.loads
           Demo.read_receipt_3
           (<["type" := JStr "read_receipt"]> (<["message_id" := JInt 3]> ∅))
           (JInt 3) 3 (mkMessage "x" Demo.alice 7 "seen" 5)
           Demo.bob_conn Demo.joined Demo.bob "7" 7 "chat_7" demo_bob_active);
    vm_compute; reflexivity.
Defined.

(** The second request writes again, and the two requests broadcast
    twice. *)
Lemma second_seen_request_writes_and_broadcasts :
  let first := trace (snd (run_calls Demo.coerce Demo.any_text Demo.repr Demo.loads
                             [Receive Demo.read_receipt_3] (Demo.bob_conn, Demo.joined))) in
  let both := trace (snd (run_calls Demo.coerce Demo.any_text Demo.repr Demo.loads
                            [Receive Demo.read_receipt_3; Receive Demo.read_receipt_3]
                            (Demo.bob_conn, Demo.joined))) in
  db_writes first = [(3, "seen")]
  ∧ db_writes both = [(3, "seen"); (3, "seen")]
  ∧ length (broadcasts both) = 2%nat
  ∧ ¬ (db_writes both = db_writes first ∧ (length (broadcasts both) ≤ 1)%nat).
Proof.
  cbv zeta.
  assert (H1 : db_writes (trace (snd (run_calls Demo.coerce Demo.any_text Demo.repr Demo.loads
                 [Receive Demo.read_receipt_3] (Demo.bob_conn, Demo.joined))))
               = [(3, "seen")]) by (vm_compute; reflexivity).
  assert (H2 : db_writes (trace (snd (run_calls Demo.coerce Demo.any_text Demo.repr Demo.loads
                 [Receive Demo.read_receipt_3; Receive Demo.read_receipt_3]
                 (Demo.bob_conn, Demo.joined))))
               = [(3, "seen"); (3, "seen")]) by (vm_compute; reflexivity).
  rewrite H1, H2. split; [reflexivity|]. split; [reflexivity|].
  split; [vm_compute; reflexivity|]. intros [Hsame _]. discriminate Hsame.
Qed.

(** ** C1: a late ['delivered'] request for message 3, which is ['seen'] *)

Lemma status_is_last_request_witness :
  observed_statuses Demo.coerce 3 ["delivered"; "sent"] (Demo.bob_conn, Demo.joined)
    = [Some "delivered"; Some "sent"].
Proof.
  apply (status_is_last_request Demo.coerce 3 ["delivered"; "sent"]
           (mkMessage "x" Demo.alice 7 "seen" 5) Demo.bob_conn Demo.joined).
  vm_compute; reflexivity.
Defined.

Lemma seen_regresses_to_delivered :
  stored_status Demo.joined 3 = Some "seen"
  ∧ observed_statuses Demo.coerce 3 ["delivered"] (Demo.bob_conn, Demo.joined)
      = [Some "delivered"]
  ∧ ¬ monotone_run Demo.coerce 3 ["delivered"] (Demo.bob_conn, Demo.joined).
Proof.
  assert (Hobs : observed_statuses Demo.coerce 3 ["delivered"] (Demo.bob_conn, Demo.joined)
                 = [Some "delivered"]) by (vm_compute; reflexivity).
  assert (Hnow : stored_status Demo.joined 3 = Some "seen") by (vm_compute; reflexivity).
  split; [exact Hnow|]. split; [exact Hobs|].
  intros (sts & Heq & Hsorted). cbn [snd] in Heq. rewrite Hobs, Hnow in Heq.
  destruct sts as [|a [|b [|? ?]]]; try discriminate Heq.
  injection Heq as <- <-.
  apply Sorted_inv in Hsorted as [_ Hhd]. apply HdRel_inv in Hhd.
  vm_compute in Hhd. lia.
Qed.

(** ** C9 and C8: bob says 5, null and hi *)

Lemma other_frames_send_a_message_witness :
  ∃ w',
    receive Demo.coerce Demo.any_text Demo.repr Demo.loads Demo.say_5
      (Demo.bob_conn, Demo.joined)
      = (Ok tt, (Demo.bob_conn, w'))
    ∧ messages (db w') !! 4 = Some (mkMessage "5" Demo.bob 7 "sent" 101)
    ∧ trace w' =
        [Log INFO (log_received "bob" "7" (JInt 5));
         GroupSend "chat_7" (typing_status_ev "bob" (JBool false) 100);
         DbCreate 4 (mkMessage "5" Demo.bob 7 "sending" 101);
         GroupSend "chat_7"
           (chat_message_ev (Some (JInt 4)) (JInt 5) "bob" "message" (Some "sent") 101);
         DbSave 4 "sent";
         GroupSend "chat_7" (message_status_ev (JInt 4) "sent" "bob" 102);
         Log INFO (log_status_updated (JInt 4) "sent" "bob")].
Proof.
  destruct (other_frames_send_a_message Demo.coerce Demo.any_text Demo.repr Demo.loads
              Demo.say_5 (<["message" := JInt 5]> ∅)
              Demo.bob_conn Demo.joined Demo.bob "7" 7 "chat_7" demo_bob_active)
    as (_ & _ & _ & _ & _ & w' & Hrun & Hrow & Htrace).
  - vm_compute; reflexivity.
  - change ((<["message" := JInt 5]> ∅ : gmap string jval) !! "type") with (@None jval).
    not_among.
  - vm_compute; reflexivity.
  - exists w'. split; [exact Hrun|]. split; [exact Hrow|exact Htrace].
Defined.

(** A frame whose ['message'] is null is in the scope of the sentence,
    but no message is created and none is broadcast: the insert fails
    and the sender gets an error frame. *)
Lemma null_message_is_not_sent :
  let run := receive Demo.coerce Demo.any_text Demo.repr Fixture.loads Fixture.say_null
               (Demo.bob_conn, Demo.joined) in
  let t := trace (snd (snd run)) in
  Fixture.loads Fixture.say_null = Some (JObj (<["message" := JNull]> ∅))
  ∧ fst run = Ok tt
  ∧ db (snd (snd run)) = db Demo.joined
  ∧ t = [Log INFO (log_received "bob" "7" JNull);
         GroupSend "chat_7" (typing_status_ev "bob" (JBool false) 100);
         Log ERROR (log_receive_error IntegrityError);
         Send "chan.bob" (error_frame IntegrityError)]
  ∧ message_broadcasts t = []
  ∧ ¬ (∃ id m, DbCreate id m ∈ t).
Proof.
  cbv zeta.
  assert (Hrun : receive Demo.coerce Demo.any_text Demo.repr Fixture.loads Fixture.say_null
                   (Demo.bob_conn, Demo.joined)
                 = (Ok tt, (Demo.bob_conn,
                            mkWorld (db Demo.joined) (groups Demo.joined)
                              [Log INFO (log_received "bob" "7" JNull);
                               GroupSend "chat_7" (typing_status_ev "bob" (JBool false) 100);
                               Log ERROR (log_receive_error IntegrityError);
                               Send "chan.bob" (error_frame IntegrityError)]
                              (clock Demo.joined) 2)))
    by (vm_compute; reflexivity).
  rewrite Hrun. cbn [fst snd trace db].
  split; [vm_compute; reflexivity|]. split; [reflexivity|]. split; [reflexivity|].
  split; [reflexivity|]. split; [reflexivity|].
  intros (id & m & Hin). rewrite !elem_of_cons in Hin.
  destruct Hin as [Hin|[Hin|[Hin|[Hin|Hin]]]]; try discriminate Hin.
  by apply elem_of_nil in Hin.
Qed.

Lemma own_message_echoed_not_delivered_witness :
  let ev := chat_message_ev (Some (JInt 4)) (JStr "hi") "bob" "message" (Some "sent") 101 in
  ∃ w' acts,
    receive Demo.coerce Demo.any_text Demo.repr Demo.loads Demo.say_hi (Demo.bob_conn, Demo.joined)
      = (Ok tt, (Demo.bob_conn, w'))
    ∧ trace w' = acts
    ∧ ("chat_7", ev) ∈ broadcasts acts
    ∧ db_writes acts = [(4, "sent")]
    ∧ "chan.bob" ∈ group_members w' "chat_7"
    ∧ ∀ w2, dispatch Demo.coerce ev (Demo.bob_conn, w2) =
        (Ok tt, (Demo.bob_conn,
                 emits w2 [Send "chan.bob"
                             (chat_message_frame (Some (JInt 4)) (JStr "hi") "bob"
                                "message" (Some "sent") 101)])).
Proof.
  destruct (own_message_echoed_not_delivered Demo.coerce Demo.any_text Demo.repr Demo.loads
              Demo.say_hi (<["message" := JStr "hi"]> ∅)
              Demo.bob_conn Demo.joined Demo.bob "7" 7 "chat_7" demo_bob_active)
    as (w' & acts & Hrun & Htrace & Hev & Hwrites & Hin & Hecho & _).
  - by_evaluation.
  - vm_compute; reflexivity.
  - change ((<["message" := JStr "hi"]> ∅ : gmap string jval) !! "type") with (@None jval).
    not_among.
  - vm_compute; reflexivity.
  - exists w', acts. split; [exact Hrun|]. split; [exact Htrace|].
    split; [exact Hev|]. split; [exact Hwrites|]. split; [exact Hin|exact Hecho].
Defined.

(** ** C2: what the room sees while bob's ['hi'] is being sent *)

Lemma status_events_follow_their_write_witness :
  publish_follows_record Demo.coerce Demo.repr (trace Demo.world)
  ∧ publish_follows_record Demo.coerce Demo.repr
      (trace (snd (run_calls Demo.coerce Demo.any_text Demo.repr Demo.loads
                     [Connect; Receive Demo.say_hi; Receive Demo.read_receipt_3;
                      Disconnect 1000]
                     (Demo.fresh "chan.bob" (Authenticated Demo.bob) "7", Demo.world)))).
Proof.
  assert (Hstart : publish_follows_record Demo.coerce Demo.repr (trace Demo.world)) by exact I.
  split; [exact Hstart|].
  exact (status_events_follow_their_write Demo.coerce Demo.any_text Demo.repr Demo.loads
           [Connect; Receive Demo.say_hi; Receive Demo.read_receipt_3; Disconnect 1000]
           (Demo.fresh "chan.bob" (Authenticated Demo.bob) "7") Demo.world Hstart).
Defined.

(** The [chat_message] event announces ['sent'] for message 4 when the
    only record of message 4 is its creation with ['sending']; ['sent']
    is saved afterwards. *)
Lemma new_message_announced_before_sent_is_saved :
  let t := trace (snd (snd (receive Demo.coerce Demo.any_text Demo.repr Demo.loads Demo.say_hi
                              (Demo.bob_conn, Demo.joined)))) in
  t = [Log INFO (log_received "bob" "7" (JStr "hi"));
       GroupSend "chat_7" (typing_status_ev "bob" (JBool false) 100);
       DbCreate 4 (mkMessage "hi" Demo.bob 7 "sending" 101);
       GroupSend "chat_7"
         (chat_message_ev (Some (JInt 4)) (JStr "hi") "bob" "message" (Some "sent") 101);
       DbSave 4 "sent";
       GroupSend "chat_7" (message_status_ev (JInt 4) "sent" "bob" 102);
       Log INFO (log_status_updated (JInt 4) "sent" "bob")]
  ∧ ¬ write_then_publish Demo.coerce t.
Proof.
  cbv zeta.
  match goal with
  | |- ?t = ?l ∧ _ => assert (Ht : t = l) by (vm_compute; reflexivity)
  end.
  rewrite Ht. split; [reflexivity|]. intros Hwtp.
  destruct (Hwtp
              [Log INFO (log_received "bob" "7" (JStr "hi"));
               GroupSend "chat_7" (typing_status_ev "bob" (JBool false) 100);
               DbCreate 4 (mkMessage "hi" Demo.bob 7 "sending" 101)]
              (GroupSend "chat_7"
                 (chat_message_ev (Some (JInt 4)) (JStr "hi") "bob" "message"
                    (Some "sent") 101))
              [DbSave 4 "sent";
               GroupSend "chat_7" (message_status_ev (JInt 4) "sent" "bob" 102);
               Log INFO (log_status_updated (JInt 4) "sent" "bob")]
              (JInt 4) "sent" eq_refl eq_refl)
    as (b & id & Hin & _ & Hrec).
  rewrite !elem_of_cons in Hin.
  destruct Hin as [->|[->|[->|Hin]]]; try discriminate Hrec.
  by apply elem_of_nil in Hin.
Qed.

(** ** C3: bob joins room 7, which holds three messages *)

Lemma connect_replays_recent_history_witness :
  let c := Demo.fresh "chan.bob" (Authenticated Demo.bob) "7" in
  size (filter (λ row : Z * Message, room row.2 = 7) (messages (db Demo.world))) = 3%nat
  ∧ ∃ c' w' acts,
      connect Demo.coerce (c, Demo.world) = (Ok tt, (c', w'))
      ∧ trace w' = trace Demo.world ++ acts
      ∧ accepts acts = ["chan.bob"]
      ∧ sends acts =
          [("chan.bob", chat_message_frame (Some (JInt 3)) (JStr "x") "alice" "message"
                          (Some "seen") 5);
           ("chan.bob", chat_message_frame (Some (JInt 1)) (JStr "yo") "alice" "message"
                          (Some "sent") 10);
           ("chan.bob", chat_message_frame (Some (JInt 2)) (JStr "re") "bob" "message"
                          (Some "sent") 11)]
      ∧ message_broadcasts acts = []
      ∧ db_writes acts = [(1, "delivered")]
      ∧ stored_status w' 1 = Some "delivered"
      ∧ stored_status w' 2 = Some "sent"
      ∧ stored_status w' 3 = Some "seen".
Proof.
  intros c.
  split; [vm_compute; reflexivity|].
  destruct (connect_replays_recent_history Demo.coerce c Demo.world Demo.bob 7
              (mkChatRoom {[1; 2]}))
    as (rows & c' & w' & acts & _ & _ & _ & _ & _ & Hrun & Htrace & _).
  - reflexivity.
  - vm_compute; reflexivity.
  - vm_compute; reflexivity.
  - by_evaluation.
  - exists c', w', acts. split; [exact Hrun|]. split; [exact Htrace|].
    clear rows. vm_compute in Hrun. injection Hrun as <- <-.
    cbn [trace Demo.world app] in Htrace. subst acts.
    repeat split; vm_compute; reflexivity.
Defined.

(** * [NotificationConsumer] *)

Module NotificationProperties.
Import NotificationConsumer.

(** X22. An anonymous connection to the notification channel is closed
    with code 4001 without being accepted or registered in any group,
    and the [disconnect] that follows does nothing at all. *)
Theorem anonymous_is_closed (self : Self) (w : World) (close_code : Z) :
  scope_user self = AnonymousUser → group_name self = None →
  let s1 := snd (connect (self, w)) in
  trace (snd s1) = trace w ++ [Close (channel_name self) 4001]
  ∧ groups (snd s1) = groups w
  ∧ disconnect close_code s1 = (Ok tt, s1).
Proof.
  intros Hanon Hfresh. unfold connect. cbn [scope_user]. rewrite Hanon.
  cbn [snd trace groups emit]. split; [done|]. split; [done|].
  unfold disconnect. cbn [group_name]. by rewrite Hfresh.
Qed.

(** X23. An authenticated [connect] registers the channel in the group
    [notifications_<user id>] and accepts the connection; the
    [disconnect] that follows removes the channel again and leaves every
    other channel's membership, in every group, as it was. *)
Theorem connect_then_disconnect (self : Self) (w : World) (u : User) (close_code : Z) :
  scope_user self = Authenticated u →
  let ch := channel_name self in
  let s1 := snd (connect (self, w)) in
  let s2 := snd (disconnect close_code s1) in
  (ch ∈ group_members (snd s1) (group_of u))
  ∧ trace (snd s1) = trace w ++ [GroupAdd (group_of u) ch; Accept ch;
                                 Log ("User " +:+ username u
                                      +:+ " connected to NotificationConsumer")]
  ∧ (ch ∉ group_members (snd s2) (group_of u))
  ∧ ∀ g ch', ch' ≠ ch →
      (ch' ∈ group_members (snd s2) g ↔ ch' ∈ group_members w g).
Proof.
  intros Hu ch s1 s2. subst s2 s1. unfold connect. cbn [scope_user]. rewrite Hu.
  cbn [snd]. unfold disconnect. cbn [group_name user channel_name snd].
  unfold group_add, group_discard, emit, group_members.
  cbn [groups trace clock ticks]. fold ch.
  set (g0 := group_of u).
  assert (Hlook : ∀ g ch',
            ch' ∈ default ∅ (alter (λ s, s ∖ {[ch]}) g0
                               (<[g0 := {[ch]} ∪ default ∅ (groups w !! g0)]> (groups w)) !! g)
            ↔ ch' ∈ default ∅ (groups w !! g) ∧ (g = g0 → ch' ≠ ch)).
  { intros g ch'. destruct (decide (g = g0)) as [->|Hne].
    - rewrite lookup_alter_eq, lookup_insert_eq. cbn.
      rewrite elem_of_difference, elem_of_union, !elem_of_singleton.
      split; [intros [[->|Hin] Hch]; [done|by split]|].
      intros [Hin Hch]. split; [by right|by apply Hch].
    - rewrite lookup_alter_ne, lookup_insert_ne by done.
      split; [by intros ?|by intros [? _]]. }
  split; [|split; [|split]].
  - rewrite lookup_insert_eq. cbn. apply elem_of_union. left. by apply elem_of_singleton.
  - by rewrite <- !app_assoc.
  - rewrite Hlook. intros [_ Hne]. by apply Hne.
  - intros g ch' Hne. rewrite Hlook. split; [by intros [? _]|by intros ?].
Qed.

(** X24. Two users have the same notification group exactly when they
    have the same id: no user's group is another user's. *)
Theorem group_of_user (u1 u2 : User) :
  group_of u1 = group_of u2 ↔ user_id u1 = user_id u2.
Proof.
  unfold group_of. split; [|by intros ->].
  intros Heq. apply (inj (String.app "notifications_")) in Heq.
  by apply (inj pretty) in Heq.
Qed.

(** X25. [receive_json] never changes the consumer or the groups.  It
    writes at most one frame, a [pong] carrying the current time, to
    its own socket, and it does so exactly when the content is a JSON
    object whose ['action'] is the string ['ping']; content that is not
    an object raises and writes nothing. *)
Theorem receive_json_only_answers_ping (content : jval) (self : Self) (w : World) :
  let run := receive_json content (self, w) in
  let is_ping := ∃ d, content = JObj d ∧ d !! "action" = Some (JStr "ping") in
  fst (snd run) = self
  ∧ groups (snd (snd run)) = groups w
  ∧ (is_ping → fst run = Ok tt
               ∧ trace (snd (snd run)) =
                   trace w ++ [Send (channel_name self) (pong (clock w (ticks w)))])
  ∧ (¬ is_ping → snd run = (self, w))
  ∧ ((∀ d, content ≠ JObj d) → fst run = Raise (AttributeError "get")).
Proof.
  cbv zeta. unfold receive_json.
  destruct content as [| | | | |d];
    try (split; [done|]; split; [done|]; split; [by intros (d & [=] & _)|];
         split; [done|done]).
  destruct (jeq_str (default JNull (d !! "action")) "ping") eqn:Hping.
  - apply jeq_str_true in Hping.
    split; [done|]. split; [done|]. split; [done|].
    split; [|by intros Hd; destruct (Hd d)].
    intros Hnot. exfalso. apply Hnot. exists d. split; [done|].
    destruct (d !! "action") as [v|]; cbn in Hping; [by subst|done].
  - split; [done|]. split; [done|]. split.
    + intros (d' & [= <-] & Hd). rewrite Hd in Hping. by cbn in Hping.
    + split; [done|]. by intros Hd; destruct (Hd d).
Qed.

End NotificationProperties.

(** * [send_notification_to_users] *)

Lemma user_group_not_notification (m : Z) (u : User) :
  user_group m ≠ NotificationConsumer.group_of u.
Proof. unfold user_group, NotificationConsumer.group_of. intros [=]. Qed.

(** X26. [send_notification_to_users] addresses each member of the room
    other than the sender exactly once, never the sender, through the
    group [user_<id>]; none of these groups is a group that a
    [NotificationConsumer] registers in, which are all named
    [notifications_<id>]. *)
Theorem notifications_skip_sender (order : gset Z → list Z)
    (room_pk : Z) (room_members : gset Z) (message : Z * Message) :
  (∀ X, order X ≡ₚ elements X) →
  let addressed := (send_notification_to_users order room_pk room_members message).*1 in
  NoDup addressed
  ∧ (∀ g, g ∈ addressed ↔
          ∃ m, m ∈ room_members ∧ m ≠ user_id (sender message.2) ∧ g = user_group m)
  ∧ (∀ g u, g ∈ addressed → g ≠ NotificationConsumer.group_of u).
Proof.
  intros Horder addressed.
  set (others := room_members ∖ {[user_id (sender message.2)]}).
  assert (Haddr : addressed = user_group <$> order others).
  { subst addressed. unfold send_notification_to_users.
    by rewrite <- list_fmap_compose. }
  rewrite Haddr. clear Haddr addressed.
  assert (Hmem : ∀ g, g ∈ user_group <$> order others
                      ↔ ∃ m, m ∈ others ∧ g = user_group m).
  { intros g. rewrite list_elem_of_fmap. split.
    - intros (m & -> & Hm). exists m. split; [|done].
      by rewrite Horder, elem_of_elements in Hm.
    - intros (m & Hm & ->). exists m. split; [done|].
      by rewrite Horder, elem_of_elements. }
  split; [|split].
  - apply NoDup_fmap_2_strong; [|rewrite Horder; apply NoDup_elements].
    intros m1 m2 _ _ Heq. cbn in Heq. unfold user_group in Heq.
    apply (inj (String.app "user_")) in Heq. by apply (inj pretty) in Heq.
  - intros g. rewrite Hmem. subst others. split.
    + intros (m & Hm & ->). exists m.
      apply elem_of_difference in Hm as [Hin Hne].
      rewrite elem_of_singleton in Hne. done.
    + intros (m & Hin & Hne & ->). exists m. split; [|done].
      apply elem_of_difference. split; [done|]. by rewrite elem_of_singleton.
  - intros g u (m & _ & ->)%Hmem. apply user_group_not_notification.
Qed.

(** * [ChatRoom.save] and [ChatRoom.get_other_member_id] *)

Module ChatRoomProperties.
Import ChatRoomModel.

(** X27. Whatever [save] hands to the storage is well-formed: a direct
    room has no name, any other room keeps its own, non-empty name; the
    type and the members are untouched, and saving the stored row again
    changes nothing.  [save] refuses exactly the rows that are not
    direct and have no name. *)
Theorem save_stores_well_formed_rooms (r : Row) :
  (∀ r', save r = Ok r' →
     type r' = type r ∧ room_members r' = room_members r
     ∧ (type r = "direct" → name r' = None)
     ∧ (type r ≠ "direct" → ∃ n, n ≠ "" ∧ name r = Some n ∧ name r' = Some n)
     ∧ save r' = Ok r')
  ∧ ((∃ e, save r = Raise e) ↔ type r ≠ "direct" ∧ (name r = None ∨ name r = Some "")).
Proof.
  unfold save, no_name. destruct (String.eqb_spec (type r) "direct") as [Hd|Hd].
  - split.
    + intros r' [= <-]. cbn. rewrite Hd. by repeat split.
    + split; [by intros [e ?]|by intros [? _]].
  - destruct (name r) as [n|] eqn:Hn.
    + destruct (String.eqb_spec n "") as [->|Hne].
      * split; [done|]. split; [intros _; split; [done|by right]|by eexists].
      * split.
        -- intros r' [= <-]. rewrite Hn.
           destruct (String.eqb_spec (type r) "direct"); [done|].
           destruct (String.eqb_spec n ""); [done|].
           repeat split; [done|]. by exists n.
        -- split; [by intros [e ?]|]. intros [_ [?|[= ?]]]; done.
    + split; [done|]. split; [intros _; split; [done|by left]|by eexists].
Qed.

Lemma first_elem (ids : gset Z) (o : Z) : first ids = Some o → o ∈ ids.
Proof.
  unfold first. intros Hhead. apply head_Some_elem_of in Hhead.
  by rewrite merge_sort_Permutation, elem_of_elements in Hhead.
Qed.

Lemma first_None (ids : gset Z) : first ids = None ↔ ids = ∅.
Proof.
  unfold first. rewrite head_None. split.
  - intros Hnil. apply leibniz_equiv, elements_empty_inv, Permutation_nil_r.
    rewrite <- (merge_sort_Permutation Z.le). by rewrite Hnil.
  - intros ->. by rewrite elements_empty.
Qed.

(** X28. [get_other_member_id] answers only for direct rooms, and then
    with a member of the room that is not the given user; it answers
    [None] exactly when the room is not direct or has no other member. *)
Theorem get_other_member_id_sound (r : Row) (user_pk : Z) :
  (∀ o, get_other_member_id r user_pk = Some o →
        type r = "direct" ∧ o ∈ room_members r ∧ o ≠ user_pk)
  ∧ (get_other_member_id r user_pk = None
     ↔ type r ≠ "direct" ∨ room_members r ⊆ {[user_pk]}).
Proof.
  unfold get_other_member_id. destruct (String.eqb_spec (type r) "direct") as [Hd|Hd]; cbn.
  - split.
    + intros o Ho%first_elem. apply elem_of_difference in Ho as [Hin Hne].
      rewrite elem_of_singleton in Hne. done.
    + rewrite first_None. split.
      * intros Hempty. right. intros x Hx.
        destruct (decide (x = user_pk)) as [->|Hne]; [by apply elem_of_singleton|].
        exfalso. apply (not_elem_of_empty (C := gset Z) x). rewrite <- Hempty.
        apply elem_of_difference. by rewrite elem_of_singleton.
      * intros [?|Hsub]; [done|]. apply set_eq. intros x.
        rewrite elem_of_difference. split; [|by intros ?%not_elem_of_empty].
        intros [Hx Hne]. by apply Hsub in Hx.
  - split; [done|]. split; [by left|done].
Qed.

(** X29. In a direct room with exactly two members, each member's
    ``other member'' is the other one. *)
Theorem other_member_of_a_pair (r : Row) (a b : Z) :
  type r = "direct" → room_members r = {[a; b]} → a ≠ b →
  get_other_member_id r a = Some b ∧ get_other_member_id r b = Some a.
Proof.
  intros Hd Hm Hne. unfold get_other_member_id. rewrite Hd, Hm. cbn [negb String.eqb].
  change (String.eqb "direct" "direct") with true. cbn [negb].
  assert (Ha : ({[a; b]} : gset Z) ∖ {[a]} = {[b]}).
  { apply set_eq. intros x.
    rewrite elem_of_difference, elem_of_union, !elem_of_singleton.
    split; [by intros [[?|?] ?]|]. intros ->. split; [by right|by intros ->]. }
  assert (Hb : ({[a; b]} : gset Z) ∖ {[b]} = {[a]}).
  { apply set_eq. intros x.
    rewrite elem_of_difference, elem_of_union, !elem_of_singleton.
    split; [by intros [[?|?] ?]|]. intros ->. by split; [left|]. }
  rewrite Ha, Hb. unfold first. by rewrite !elements_singleton.
Qed.

End ChatRoomProperties.

(** * More worked runs *)

Lemma fixture_alice_active : active Fixture.alice_conn Demo.alice "7" 7 "chat_7".
Proof. by split. Defined.

(** Text that is not JSON. *)
Lemma receive_rejects_non_objects_witness :
  ∃ e, receive Demo.coerce Demo.any_text Demo.repr Fixture.loads Fixture.not_json
         (Demo.bob_conn, Demo.joined) =
         (Ok tt, (Demo.bob_conn,
                  emits Demo.joined [Log ERROR (log_receive_error e);
                                     Send "chan.bob" (error_frame e)]))
       ∧ (Fixture.loads Fixture.not_json = None → e = JSONDecodeError)
       ∧ (is_Some (Fixture.loads Fixture.not_json) → e = AttributeError "get").
Proof.
  apply (receive_rejects_non_objects Demo.coerce Demo.any_text Demo.repr Fixture.loads
           Fixture.not_json Demo.bob_conn Demo.joined).
  intros d. vm_compute. discriminate.
Defined.

(** bob starts typing. *)
Lemma receive_typing_broadcasts_witness :
  receive Demo.coerce Demo.any_text Demo.repr Fixture.loads Fixture.typing_on
    (Demo.bob_conn, Demo.joined) =
    (Ok tt, (Demo.bob_conn,
             mkWorld (db Demo.joined) (groups Demo.joined)
               [GroupSend "chat_7" (typing_status_ev "bob" (JBool true) 100)]
               (clock Demo.joined) 1)).
Proof.
  etransitivity;
    [apply (receive_typing_broadcasts Demo.coerce Demo.any_text Demo.repr Fixture.loads
              Fixture.typing_on
              (<["type" := JStr "typing"]> (<["is_typing" := JBool true]> ∅))
              Demo.bob_conn Demo.joined "chat_7" (Authenticated Demo.bob))|];
    vm_compute; reflexivity.
Defined.

(** bob goes away. *)
Lemma receive_status_broadcasts_witness :
  receive Demo.coerce Demo.any_text Demo.repr Fixture.loads Fixture.status_away
    (Demo.bob_conn, Demo.joined) =
    (Ok tt, (Demo.bob_conn,
             mkWorld (db Demo.joined) (groups Demo.joined)
               [GroupSend "chat_7" (user_status_ev "bob" "away" 100)]
               (clock Demo.joined) 1)).
Proof.
  etransitivity;
    [apply (receive_status_broadcasts Demo.coerce Demo.any_text Demo.repr Fixture.loads
              Fixture.status_away
              (<["type" := JStr "status"]> (<["status" := JStr "away"]> ∅)) "away"
              Demo.bob_conn Demo.joined "chat_7" (Authenticated Demo.bob))|];
    try (vm_compute; reflexivity).
  rewrite !elem_of_cons. right. right. by left.
Defined.

(** A read receipt whose id is null. *)
Lemma receive_read_receipt_without_id_witness :
  receive Demo.coerce Demo.any_text Demo.repr Fixture.loads Fixture.read_receipt_null
    (Demo.bob_conn, Demo.joined) = (Ok tt, (Demo.bob_conn, Demo.joined)).
Proof.
  apply (receive_read_receipt_without_id Demo.coerce Demo.any_text Demo.repr Fixture.loads
           Fixture.read_receipt_null
           (<["type" := JStr "read_receipt"]> (<["message_id" := JNull]> ∅)));
    try (vm_compute; reflexivity).
  change ((<["type" := JStr "read_receipt"]> (<["message_id" := JNull]> ∅)
             : gmap string jval) !! "message_id") with (Some JNull).
  rewrite !elem_of_cons. right. by left.
Defined.

(** bob reads message 1, which alice sent. *)
Lemma read_receipt_marks_seen_witness :
  ∃ w',
    receive Demo.coerce Demo.any_text Demo.repr Fixture.loads Fixture.read_receipt_1
      (Demo.bob_conn, Demo.joined) = (Ok tt, (Demo.bob_conn, w'))
    ∧ stored_status Demo.joined 1 = Some "sent"
    ∧ stored_status w' 1 = Some "seen"
    ∧ trace w' = [DbSave 1 "seen";
                  GroupSend "chat_7" (message_status_ev (JInt 1) "seen" "bob" 100);
                  Log INFO (log_status_updated (JInt 1) "seen" "bob")].
Proof.
  eexists. split.
  - apply (read_receipt_marks_seen Demo.coerce Demo.any_text Demo.repr Fixture.loads
             Fixture.read_receipt_1
             (<["type" := JStr "read_receipt"]> (<["message_id" := JInt 1]> ∅))
             (JInt 1) 1 (mkMessage "yo" Demo.alice 7 "sent" 10)
             Demo.bob_conn Demo.joined "chat_7" (Authenticated Demo.bob));
      vm_compute; reflexivity.
  - split; [vm_compute; reflexivity|]. split; [vm_compute; reflexivity|reflexivity].
Defined.

(** bob sends a message whose content is null: the insert fails. *)
Lemma rejected_content_is_reported_witness :
  receive Demo.coerce Demo.any_text Demo.repr Fixture.loads Fixture.say_null
    (Demo.bob_conn, Demo.joined) =
    (Ok tt,
     (Demo.bob_conn,
      mkWorld (db Demo.joined) (groups Demo.joined)
        [Log INFO (log_received "bob" "7" JNull);
         GroupSend "chat_7" (typing_status_ev "bob" (JBool false) 100);
         Log ERROR (log_receive_error IntegrityError);
         Send "chan.bob" (error_frame IntegrityError)]
        (clock Demo.joined) 2)).
Proof.
  etransitivity;
    [apply (rejected_content_is_reported Demo.coerce Demo.any_text Demo.repr Fixture.loads
              Fixture.say_null (<["message" := JNull]> ∅)
              Demo.bob_conn Demo.joined Demo.bob "7" 7 "chat_7" demo_bob_active)|].
  - vm_compute; reflexivity.
  - change ((<["message" := JNull]> ∅ : gmap string jval) !! "type") with (@None jval).
    not_among.
  - vm_compute; reflexivity.
  - vm_compute; reflexivity.
Defined.

(** bob's message 2 reaches alice's consumer. *)
Lemma chat_message_marks_delivered_witness :
  ∃ w',
    dispatch Demo.coerce
      (chat_message_ev (Some (JInt 2)) (JStr "re") "bob" "message" (Some "sent") 11)
      (Fixture.alice_conn, Fixture.both_joined) = (Ok tt, (Fixture.alice_conn, w'))
    ∧ stored_status w' 2 = Some "delivered"
    ∧ trace w' =
        [Send "chan.alice"
           (chat_message_frame (Some (JInt 2)) (JStr "re") "bob" "message" (Some "sent") 11);
         DbSave 2 "delivered";
         GroupSend "chat_7" (message_status_ev (JInt 2) "delivered" "alice" 100);
         Log INFO (log_status_updated (JInt 2) "delivered" "alice")].
Proof.
  eexists. split.
  - apply (chat_message_marks_delivered Demo.coerce (JInt 2) (JStr "re") "bob" 11 2
             (mkMessage "re" Demo.bob 7 "sent" 11)
             Fixture.alice_conn Fixture.both_joined "chat_7" (Authenticated Demo.alice));
      try (vm_compute; reflexivity).
    discriminate.
  - split; [vm_compute; reflexivity|reflexivity].
Defined.

(** The notice that bob joined reaches alice's consumer. *)
Lemma chat_message_only_forwards_witness :
  dispatch Demo.coerce
    (chat_message_ev None (JStr "bob joined the chat") "bob" "join" None 101)
    (Fixture.alice_conn, Fixture.both_joined) =
    (Ok tt, (Fixture.alice_conn,
             emits Fixture.both_joined
               [Send "chan.alice"
                  (chat_message_frame None (JStr "bob joined the chat") "bob" "join"
                     None 101)])).
Proof.
  apply (chat_message_only_forwards Demo.coerce None (JStr "bob joined the chat")
           "bob" "join" None 101 Fixture.alice_conn Fixture.both_joined
           (Authenticated Demo.alice)).
  - reflexivity.
  - left. discriminate.
Defined.

(** bob connects to room 7. *)
Lemma connect_registers_session_witness :
  ∃ c' w',
    connect Demo.coerce (Demo.fresh "chan.bob" (Authenticated Demo.bob) "7", Demo.world)
      = (Ok tt, (c', w'))
    ∧ active c' Demo.bob "7" 7 "chat_7"
    ∧ "chan.bob" ∈ group_members w' "chat_7".
Proof.
  destruct (connect_registers_session Demo.coerce
              (Demo.fresh "chan.bob" (Authenticated Demo.bob) "7") Demo.world
              Demo.bob 7 (mkChatRoom {[1; 2]}))
    as (c' & w' & acts & n & Hrun & Hactive & _ & _ & Hin & _).
  - reflexivity.
  - vm_compute; reflexivity.
  - vm_compute; reflexivity.
  - by_evaluation.
  - exists c', w'. split; [exact Hrun|]. split; [exact Hactive|exact Hin].
Defined.

Lemma connect_then_disconnect_unregisters_witness :
  "chan.bob" ∉ group_members
    (snd (run_calls Demo.coerce Demo.any_text Demo.repr Demo.loads [Connect; Disconnect 1000]
            (Demo.fresh "chan.bob" (Authenticated Demo.bob) "7", Demo.world)))
    "chat_7".
Proof.
  destruct (connect_then_disconnect_unregisters Demo.coerce Demo.any_text Demo.repr Demo.loads
              (Demo.fresh "chan.bob" (Authenticated Demo.bob) "7") Demo.world
              Demo.bob 7 (mkChatRoom {[1; 2]}) 1000)
    as (_ & Hout & _).
  - reflexivity.
  - vm_compute; reflexivity.
  - vm_compute; reflexivity.
  - by_evaluation.
  - exact Hout.
Defined.

(** An anonymous connection is rejected, then torn down. *)
Lemma rejected_connection_tears_down_silently_witness :
  let s1 := snd (connect Demo.coerce (Demo.fresh "chan.anon" AnonymousUser "7", Demo.world)) in
  disconnect 1006 s1 = (Ok tt, s1).
Proof.
  apply (rejected_connection_tears_down_silently Demo.coerce
           (Demo.fresh "chan.anon" AnonymousUser "7") Demo.world 4001 1006).
  - reflexivity.
  - eexists _, _.
    rewrite (connect_unauthenticated Demo.coerce
               (Demo.fresh "chan.anon" AnonymousUser "7") Demo.world eq_refl).
    by repeat split.
Defined.

(** bob asks for the room ["lobby"], which is no key. *)
Lemma connect_bad_room_id_witness :
  close_codes
    (trace (snd (snd (connect Demo.coerce
                        (Demo.fresh "chan.bob" (Authenticated Demo.bob) "lobby",
                         Demo.world))))) = [4000].
Proof.
  destruct (connect_bad_room_id Demo.coerce
              (Demo.fresh "chan.bob" (Authenticated Demo.bob) "lobby") Demo.world Demo.bob)
    as [Hrun _].
  - reflexivity.
  - vm_compute; reflexivity.
  - rewrite Hrun. reflexivity.
Defined.


(** A token in the query string, with a header that would name nobody. *)
Lemma query_token_takes_precedence_witness :
  JWTAuthMiddleware_call Demo.coerce Demo.token Fixture.query
    (mkScope "token=bob-token" (Some [("authorization", "Bearer forged")])) Demo.store
  = Ok (Authenticated Demo.bob).
Proof.
  destruct (query_token_takes_precedence Demo.coerce Demo.token Fixture.query
              (mkScope "token=bob-token" (Some [("authorization", "Bearer forged")]))
              Demo.store "bob-token" []) as [_ Hrun].
  - vm_compute; reflexivity.
  - discriminate.
  - rewrite Hrun. vm_compute; reflexivity.
Defined.

(** The same token in an [authorization] header. *)
Lemma bearer_header_is_used_witness :
  JWTAuthMiddleware_call Demo.coerce Demo.token Fixture.query
    (mkScope "" (Some [("host", "chat.local"); ("authorization", "Bearer bob-token")]))
    Demo.store
  = Ok (Authenticated Demo.bob).
Proof.
  destruct (bearer_header_is_used Demo.coerce Demo.token Fixture.query
              (mkScope "" (Some [("host", "chat.local");
                                 ("authorization", "Bearer bob-token")]))
              Demo.store
              [("host", "chat.local"); ("authorization", "Bearer bob-token")]
              "bob-token" "") as [_ Hrun].
  - vm_compute; reflexivity.
  - reflexivity.
  - vm_compute; reflexivity.
  - reflexivity.
  - by left.
  - rewrite Hrun. vm_compute; reflexivity.
Defined.

(** The scheme written in lower case. *)
Lemma other_schemes_are_anonymous_witness :
  JWTAuthMiddleware_call Demo.coerce Demo.token Fixture.query
    (mkScope "" (Some [("authorization", "bearer bob-token")])) Demo.store
  = Ok AnonymousUser.
Proof.
  apply (other_schemes_are_anonymous Demo.coerce Demo.token Fixture.query
           (mkScope "" (Some [("authorization", "bearer bob-token")])) Demo.store).
  - vm_compute; reflexivity.
  - right. exists [("authorization", "bearer bob-token")]. split; [reflexivity|].
    right. exists "bearer bob-token". split; vm_compute; reflexivity.
Defined.

(** Two [authorization] headers: the later one names bob. *)
Lemma later_authorization_header_wins_witness :
  JWTAuthMiddleware_call Demo.coerce Demo.token Fixture.query
    (mkScope "" (Some ([("authorization", "Bearer forged")]
                       ++ ("authorization", "Bearer bob-token") :: [("host", "chat.local")])))
    Demo.store
  = Ok (Authenticated Demo.bob).
Proof.
  destruct (later_authorization_header_wins Demo.coerce Demo.token Fixture.query
              (mkScope "" (Some ([("authorization", "Bearer forged")]
                                 ++ ("authorization", "Bearer bob-token")
                                      :: [("host", "chat.local")])))
              Demo.store [("authorization", "Bearer forged")] [("host", "chat.local")]
              "bob-token") as [_ Hrun].
  - vm_compute; reflexivity.
  - reflexivity.
  - cbn. rewrite not_elem_of_cons. split; [discriminate|apply not_elem_of_nil].
  - reflexivity.
  - rewrite Hrun. vm_compute; reflexivity.
Defined.

(** Tokens that validate but whose ['user_id'] claim is missing or is
    not a key: [get_user_from_token] raises, and so does the middleware. *)
Lemma unusable_claims_raise :
  get_user_from_token Demo.coerce Demo.token (Some "claimless-token") Demo.store
    = Raise (KeyError "user_id")
  ∧ get_user_from_token Demo.coerce Demo.token (Some "named-token") Demo.store
    = Raise ValueError
  ∧ JWTAuthMiddleware_call Demo.coerce Demo.token Fixture.query
      (mkScope "" (Some [("authorization", "Bearer claimless-token")])) Demo.store
    = Raise (KeyError "user_id").
Proof. repeat split; vm_compute; reflexivity. Qed.

(** The notification channel: an anonymous and an authenticated
    connection. *)
Lemma anonymous_is_closed_witness :
  let self := NotificationConsumer.mkSelf "note.anon" AnonymousUser None None in
  let w := NotificationConsumer.mkWorld ∅ [] (λ n, 100 + Z.of_nat n) 0 in
  let s1 := snd (NotificationConsumer.connect (self, w)) in
  NotificationConsumer.trace (snd s1) = [NotificationConsumer.Close "note.anon" 4001]
  ∧ NotificationConsumer.disconnect 1006 s1 = (Ok tt, s1).
Proof.
  intros self w s1.
  destruct (NotificationProperties.anonymous_is_closed self w 1006 eq_refl eq_refl)
    as (Htrace & _ & Hquiet).
  split; [exact Htrace|exact Hquiet].
Defined.

Lemma connect_then_disconnect_witness :
  let self := NotificationConsumer.mkSelf "note.bob" (Authenticated Demo.bob) None None in
  let w := NotificationConsumer.mkWorld ∅ [] (λ n, 100 + Z.of_nat n) 0 in
  let s1 := snd (NotificationConsumer.connect (self, w)) in
  let s2 := snd (NotificationConsumer.disconnect 1000 s1) in
  NotificationConsumer.group_of Demo.bob = "notifications_2"
  ∧ ("note.bob" ∈ NotificationConsumer.group_members (snd s1) "notifications_2")
  ∧ ("note.bob" ∉ NotificationConsumer.group_members (snd s2) "notifications_2").
Proof.
  intros self w s1 s2.
  destruct (NotificationProperties.connect_then_disconnect self w Demo.bob 1000 eq_refl)
    as (Hin & _ & Hout & _).
  split; [vm_compute; reflexivity|]. split; [exact Hin|exact Hout].
Defined.

(** alice's message 1 in room 7: only bob is notified. *)
Lemma notifications_skip_sender_witness :
  (send_notification_to_users elements 7 {[1; 2]}
     (1, mkMessage "yo" Demo.alice 7 "sent" 10)).*1 = ["user_2"].
Proof.
  destruct (notifications_skip_sender elements 7 {[1; 2]}
              (1, mkMessage "yo" Demo.alice 7 "sent" 10))
    as (Hnodup & _ & _); [done|].
  vm_compute; reflexivity.
Defined.

(** Saving rooms: a direct room given a name, a group without one. *)
Lemma save_stores_well_formed_rooms_witness :
  ChatRoomModel.save (ChatRoomModel.mkRow (Some "ours") "direct" {[1; 2]})
    = Ok (ChatRoomModel.mkRow None "direct" {[1; 2]})
  ∧ ChatRoomModel.name (ChatRoomModel.mkRow None "direct" {[1; 2]}) = None
  ∧ ∃ e, ChatRoomModel.save (ChatRoomModel.mkRow (Some "") "group" {[1; 2]}) = Raise e.
Proof.
  split; [reflexivity|]. split.
  - apply (proj1 (ChatRoomProperties.save_stores_well_formed_rooms
                    (ChatRoomModel.mkRow (Some "ours") "direct" {[1; 2]}))
             (ChatRoomModel.mkRow None "direct" {[1; 2]}) eq_refl).
    reflexivity.
  - apply (proj2 (ChatRoomProperties.save_stores_well_formed_rooms
                    (ChatRoomModel.mkRow (Some "") "group" {[1; 2]}))).
    split; [discriminate|by right].
Defined.

Lemma get_other_member_id_sound_witness :
  ChatRoomModel.get_other_member_id (ChatRoomModel.mkRow (Some "team") "group" {[1; 2]}) 1
    = None.
Proof.
  apply (proj2 (ChatRoomProperties.get_other_member_id_sound
                  (ChatRoomModel.mkRow (Some "team") "group" {[1; 2]}) 1)).
  left. discriminate.
Defined.

Lemma other_member_of_a_pair_witness :
  ChatRoomModel.get_other_member_id (ChatRoomModel.mkRow None "direct" {[1; 2]}) 1 = Some 2
  ∧ ChatRoomModel.get_other_member_id (ChatRoomModel.mkRow None "direct" {[1; 2]}) 2 = Some 1.
Proof.
  apply (ChatRoomProperties.other_member_of_a_pair
           (ChatRoomModel.mkRow None "direct" {[1; 2]}) 1 2);
    [reflexivity|reflexivity|discriminate].
Defined.
